(** * TopSearch: the query-dispatch and view-state contract of [App.js]

    A shallow embedding of the React component [App] of
    [frontend/src/App.js] and of the [API_URL] module, followed by the
    properties of the two search operations and of the collection-change
    handler.

    The component keeps seven [useState] slots.  An event handler is a
    closure created by one render: it reads the slot values of THAT render
    and talks to the rest of the world only through the state setters,
    [axios.get] and [console.error].  A handler is therefore embedded as a
    function from the render's snapshot to a small program of effects
    ([prog]); [exec] runs such a program against the store and a network. *)

From stdpp Require Import base strings list gmap.

Open Scope string_scope.

(** ** Data *)

(** JSON values, as found in [response.data]. *)
#[warnings="-register-all"]
Inductive json : Type :=
| JNull
| JBool (b : bool)
| JNum (n : Z)
| JStr (s : string)
| JArr (items : list json)
| JObj (fields : list (string * json)).

(** What an axios promise rejects with: a transport failure or a response
    whose status is outside 2xx. *)
Inductive axios_error : Type :=
| NetworkError (message : string)
| BadStatus (status : Z) (body : json).

(** Settlement of the promise returned by [axios.get]. *)
Inductive outcome : Type :=
| Resolved (data : json)
| Rejected (e : axios_error).

Inductive Method : Type := GET | POST | PUT | DELETE.

(** An outbound call: [axios.get(url, { params })]. *)
Record Request : Type := mkRequest {
  meth : Method;
  url : string;
  params : gmap string string
}.

(** The seven [useState] slots of [App]. *)
Record State : Type := mkState {
  selectedCollection : string;
  year : string;
  startYear : string;
  endYear : string;
  queryString : string;
  articles : json;
  error : string
}.

(** The [useState] defaults. *)
Definition initial_state : State :=
  mkState "" "" "" "" "" (JArr []) "".

Definition collections : list string :=
  ["CSCV"; "CsAI"; "CsCL"; "CsLG"; "StatML"].

(** The part of a change event the handlers read: [event.target.value]. *)
Record ChangeEvent : Type := mkChangeEvent { target_value : string }.

(** JavaScript truthiness of a string: only the empty string is falsy. *)
Definition truthy (s : string) : bool :=
  match s with
  | EmptyString => false
  | String _ _ => true
  end.

(** ** Effects *)

(** Programs of effects, in continuation style.  [AxiosGet] suspends the
    handler until the promise settles; a rejection is what the [catch]
    clause receives. *)
Inductive prog : Type :=
| Done
| setSelectedCollection (c : string) (k : prog)
| setYear (y : string) (k : prog)
| setStartYear (y : string) (k : prog)
| setEndYear (y : string) (k : prog)
| setQueryString (q : string) (k : prog)
| setArticles (v : json) (k : prog)
| setError (m : string) (k : prog)
| console_error (e : axios_error) (k : prog)
| AxiosGet (u : string) (ps : gmap string string) (k : outcome -> prog).

Declare Scope prog_scope.
Delimit Scope prog_scope with prog.
Notation "c ;; k" := (c k%prog)
  (at level 100, k at level 200, right associativity, only parsing) : prog_scope.
Notation "'await' r <- 'axios_get' u 'with' ps ;; k" :=
  (AxiosGet u ps (fun r => k%prog))
  (at level 100, r name, u at level 50, ps at level 50, k at level 200,
   right associativity, only parsing) : prog_scope.
Notation "'return_'" := Done (only parsing) : prog_scope.

(** The store updates behind the setters. *)
Definition set_selectedCollection (c : string) (st : State) : State :=
  mkState c (year st) (startYear st) (endYear st) (queryString st)
          (articles st) (error st).
Definition set_year (y : string) (st : State) : State :=
  mkState (selectedCollection st) y (startYear st) (endYear st)
          (queryString st) (articles st) (error st).
Definition set_startYear (y : string) (st : State) : State :=
  mkState (selectedCollection st) (year st) y (endYear st)
          (queryString st) (articles st) (error st).
Definition set_endYear (y : string) (st : State) : State :=
  mkState (selectedCollection st) (year st) (startYear st) y
          (queryString st) (articles st) (error st).
Definition set_queryString (q : string) (st : State) : State :=
  mkState (selectedCollection st) (year st) (startYear st) (endYear st)
          q (articles st) (error st).
Definition set_articles (v : json) (st : State) : State :=
  mkState (selectedCollection st) (year st) (startYear st) (endYear st)
          (queryString st) v (error st).
Definition set_error (m : string) (st : State) : State :=
  mkState (selectedCollection st) (year st) (startYear st) (endYear st)
          (queryString st) (articles st) m.

(** What one run leaves behind: the store, the calls sent (oldest first)
    and the console. *)
Record World : Type := mkWorld {
  store : State;
  sent : list Request;
  logged : list axios_error
}.

Definition on_store (f : State -> State) (w : World) : World :=
  mkWorld (f (store w)) (sent w) (logged w).

(** A network settles every call. *)
Definition Network : Type := Request -> outcome.

Fixpoint exec (net : Network) (p : prog) (w : World) : World :=
  match p with
  | Done => w
  | setSelectedCollection c k => exec net k (on_store (set_selectedCollection c) w)
  | setYear y k => exec net k (on_store (set_year y) w)
  | setStartYear y k => exec net k (on_store (set_startYear y) w)
  | setEndYear y k => exec net k (on_store (set_endYear y) w)
  | setQueryString q k => exec net k (on_store (set_queryString q) w)
  | setArticles v k => exec net k (on_store (set_articles v) w)
  | setError m k => exec net k (on_store (set_error m) w)
  | console_error e k => exec net k (mkWorld (store w) (sent w) (logged w ++ [e]))
  | AxiosGet u ps k =>
      let r := mkRequest GET u ps in
      exec net (k (net r)) (mkWorld (store w) (sent w ++ [r]) (logged w))
  end.

(** One user event: the handler of the render of [s] runs against the
    store holding [s], nothing sent or logged yet. *)
Definition dispatch (net : Network) (h : State -> prog) (s : State) : World :=
  exec net (h s) (mkWorld s [] []).

(** ** The handlers of [App.js] *)

Section Handlers.
Local Open Scope prog_scope.

(** [handleSearch], lines 17-40. *)
Definition handleSearch (s : State) : prog :=
  if negb (truthy (selectedCollection s)) then
    setError "Veuillez sélectionner une collection." ;;
    return_
  else
    let params : gmap string string := ∅ in
    let params := if truthy (year s) then <["year" := year s]> params else params in
    let params :=
      if truthy (startYear s) then <["start_year" := startYear s]> params else params in
    let params :=
      if truthy (endYear s) then <["end_year" := endYear s]> params else params in
    await response <- axios_get
        ("/collections/" +:+ selectedCollection s +:+ "/articles") with params ;;
    match response with
    | Resolved data =>
        setArticles data ;;
        setError "" ;;
        Done
    | Rejected err =>
        setError "Erreur lors de la récupération des articles." ;;
        console_error err ;;
        Done
    end.

(** [handleSimilaritySearch], lines 44-70. *)
Definition handleSimilaritySearch (s : State) : prog :=
  if negb (truthy (selectedCollection s)) then
    setError "Veuillez sélectionner une collection." ;;
    return_
  else if negb (truthy (queryString s)) then
    setError "Veuillez entrer un terme de recherche." ;;
    return_
  else
    await response <- axios_get
        ("/collections/" +:+ selectedCollection s +:+ "/search")
        with ({[ "query_string" := queryString s ]}) ;;
    match response with
    | Resolved data =>
        setArticles data ;;
        setError "" ;;
        Done
    | Rejected err =>
        setError "Erreur lors de la recherche par similarité." ;;
        console_error err ;;
        Done
    end.

(** [handleCollectionChange], lines 73-82.  [handleSearch] is the closure
    of the same render, so it is applied to the same snapshot [s]. *)
Definition handleCollectionChange (event : ChangeEvent) (s : State) : prog :=
  let collection := target_value event in
  setSelectedCollection collection ;;
  if negb (truthy (year s)) && negb (truthy (startYear s)) && negb (truthy (endYear s))
  then handleSearch s
  else Done.

(** The [onChange] handlers of the four inputs, lines 126, 135, 144, 155. *)
Definition onYearChange (e : ChangeEvent) (_ : State) : prog :=
  setYear (target_value e) ;; Done.
Definition onStartYearChange (e : ChangeEvent) (_ : State) : prog :=
  setStartYear (target_value e) ;; Done.
Definition onEndYearChange (e : ChangeEvent) (_ : State) : prog :=
  setEndYear (target_value e) ;; Done.
Definition onQueryStringChange (e : ChangeEvent) (_ : State) : prog :=
  setQueryString (target_value e) ;; Done.
End Handlers.

(** ** The [API_URL] module *)

(** [process.env.REACT_APP_API_URL || 'http://localhost:8000']: the setting
    is [undefined] ([None]) or a string, and [||] falls back on a falsy
    left operand. *)
Definition API_URL (REACT_APP_API_URL : option string) : string :=
  match REACT_APP_API_URL with
  | Some u => if truthy u then u else "http://localhost:8000"
  | None => "http://localhost:8000"
  end.

(** The address [getData] fetches: [`${API_URL}/api/data`]. *)
Definition getData_url (REACT_APP_API_URL : option string) : string :=
  API_URL REACT_APP_API_URL +:+ "/api/data".

(** ** Reading a run *)

(** The single call of a run was rejected with [e]. *)
Definition call_rejected (net : Network) (w : World) (e : axios_error) : Prop :=
  ∃ r, sent w = [r] ∧ net r = Rejected e.

(** The single call of a run was answered with the body [v]. *)
Definition call_resolved (net : Network) (w : World) (v : json) : Prop :=
  ∃ r, sent w = [r] ∧ net r = Resolved v.

(** Programs that never call [setSelectedCollection]. *)
Inductive keeps_selection : prog -> Prop :=
| ks_Done : keeps_selection Done
| ks_SetYear y k : keeps_selection k -> keeps_selection (setYear y k)
| ks_SetStartYear y k : keeps_selection k -> keeps_selection (setStartYear y k)
| ks_SetEndYear y k : keeps_selection k -> keeps_selection (setEndYear y k)
| ks_SetQueryString q k : keeps_selection k -> keeps_selection (setQueryString q k)
| ks_SetArticles v k : keeps_selection k -> keeps_selection (setArticles v k)
| ks_SetError m k : keeps_selection k -> keeps_selection (setError m k)
| ks_ConsoleError e k : keeps_selection k -> keeps_selection (console_error e k)
| ks_AxiosGet u ps k :
    (forall r, keeps_selection (k r)) -> keeps_selection (AxiosGet u ps k).

(** Programs that only touch the result list and the error message: what
    both search operations are. *)
Inductive result_only : prog -> Prop :=
| ro_Done : result_only Done
| ro_SetArticles v k : result_only k -> result_only (setArticles v k)
| ro_SetError m k : result_only k -> result_only (setError m k)
| ro_ConsoleError e k : result_only k -> result_only (console_error e k)
| ro_AxiosGet u ps k :
    (forall r, result_only (k r)) -> result_only (AxiosGet u ps k).

(** Two snapshots that a criteria search cannot tell apart. *)
Definition same_criteria (s1 s2 : State) : Prop :=
  selectedCollection s1 = selectedCollection s2 ∧ year s1 = year s2 ∧
  startYear s1 = startYear s2 ∧ endYear s1 = endYear s2.

(** ** [getData] *)

(** What the promise of [fetch] settles with: a response of any status,
    whose body [response.json()] either parses ([Some]) or not ([None]),
    or a transport failure.  [fetch] does not reject on a status. *)
Inductive fetch_outcome : Type :=
| Response (status : Z) (body : option json)
| FetchFailed (message : string).

(** What an [async] function settles with. *)
Inductive settled : Type :=
| Fulfilled (data : json)
| Thrown_TypeError (message : string)
| Thrown_SyntaxError.

(** [getData], lines 3-6 of the [API_URL] module: [fetch] the address, then
    [response.json()]. *)
Definition getData (REACT_APP_API_URL : option string)
    (fetch : string -> fetch_outcome) : settled :=
  match fetch (getData_url REACT_APP_API_URL) with
  | Response _ (Some data) => Fulfilled data
  | Response _ None => Thrown_SyntaxError
  | FetchFailed message => Thrown_TypeError message
  end.

(** ** The view returned by [App] *)

(** The handlers the view attaches to its controls. *)
Inductive Handler : Type :=
| h_handleCollectionChange
| h_setYear
| h_setStartYear
| h_setEndYear
| h_setQueryString
| h_handleSearch
| h_handleSimilaritySearch.

(** What runs when a control fires.  The two click handlers take no
    argument, so the event is dropped. *)
Definition handler_prog (h : Handler) (e : ChangeEvent) : State -> prog :=
  match h with
  | h_handleCollectionChange => handleCollectionChange e
  | h_setYear => onYearChange e
  | h_setStartYear => onStartYearChange e
  | h_setEndYear => onEndYearChange e
  | h_setQueryString => onQueryStringChange e
  | h_handleSearch => handleSearch
  | h_handleSimilaritySearch => handleSimilaritySearch
  end.

(** A JavaScript value read off a response: a JSON value or [undefined]. *)
Inductive value : Type :=
| Undefined
| Json (j : json).

Inductive attr : Type :=
| AStr (s : string)
| ABool (b : bool)
| AHandler (h : Handler).

(** React elements: a tag with its key, attributes and children; a value
    used as a child (text is a string value); an array of children, as
    [Array.prototype.map] returns. *)
#[warnings="-register-all"]
Inductive jsx : Type :=
| Tag (name : string) (key : option value) (attrs : list (string * attr))
      (children : list jsx)
| Val (v : value)
| Arr (items : list jsx).

Definition Text (s : string) : jsx := Val (Json (JStr s)).

(** The member of a parsed object: of two members of one name the later
    one stays, as [JSON.parse] has it. *)
Fixpoint own_property (name : string) (fields : list (string * json)) : option json :=
  match fields with
  | [] => None
  | (k, j) :: rest =>
      match own_property name rest with
      | Some j' => Some j'
      | None => if String.eqb k name then Some j else None
      end
  end.

(** [article.id], [article.title], [article.summary]: reading a member of
    [null] throws ([None]); an object gives its member or [undefined]; on
    an array, string, number or boolean these three names are [undefined],
    no prototype defines them. *)
Definition article_member (article : json) (name : string) : option value :=
  match article with
  | JNull => None
  | JObj fields =>
      Some (match own_property name fields with
            | Some j => Json j
            | None => Undefined
            end)
  | _ => Some Undefined
  end.

(** The callback of [articles.map], lines 162-167. *)
Definition article_item (article : json) : option jsx :=
  id ← article_member article "id";
  title ← article_member article "title";
  summary ← article_member article "summary";
  Some (Tag "li" (Some id) [("className", AStr "article-item")]
          [Tag "h2" None [("className", AStr "article-title")] [Val title];
           Tag "p" None [("className", AStr "article-summary")] [Val summary]]).

(** [articles.map(f)]: only an array has [map]; on anything else the call
    throws a TypeError ([None]). *)
Definition articles_map (f : json -> option jsx) (articles : json) : option (list jsx) :=
  match articles with
  | JArr items => mapM f items
  | _ => None
  end.

(** The callback of [collections.map], lines 97-110. *)
Definition radio_item (selectedCollection collection : string) : jsx :=
  Tag "div" (Some (Json (JStr collection))) [("className", AStr "radio-item")]
    [Tag "input" None
       [("type", AStr "radio"); ("id", AStr collection); ("name", AStr "collection");
        ("value", AStr collection);
        ("checked", ABool (String.eqb selectedCollection collection));
        ("onChange", AHandler h_handleCollectionChange);
        ("className", AStr "radio-input")] [];
     Tag "label" None [("htmlFor", AStr collection); ("className", AStr "radio-label")]
       [Text collection]].

(** [{error && <p className="error-message">{error}</p>}]: the paragraph,
    or the falsy [error] itself. *)
Definition error_line (error : string) : jsx :=
  if truthy error
  then Tag "p" None [("className", AStr "error-message")] [Text error]
  else Text error.

(** The element [App] returns, lines 85-175.  [fullYear] is
    [new Date().getFullYear()].  The only part that can throw is
    [articles.map] with its callback; nothing else has an effect, so it is
    evaluated first here. *)
Definition App (fullYear : Z) (s : State) : option jsx :=
  items ← articles_map article_item (articles s);
  Some (
  Tag "div" None [("className", AStr "app-container")]
    [Tag "header" None [("className", AStr "app-header")]
       [Tag "h1" None [("className", AStr "app-title")] [Text "TopSearch"];
        Tag "p" None [("className", AStr "app-subtitle")]
          [Text " Find your articles here"]];
     Tag "main" None [("className", AStr "app-main")]
       [Tag "div" None [("className", AStr "topsearch-container")]
          [Tag "h1" None [("className", AStr "topsearch-title")]
             [Text "TopSearch Articles"];
           Tag "div" None [("className", AStr "form-section")]
             [Tag "label" None [("className", AStr "form-label")]
                [Text "Sélectionner une collection :"];
              Tag "div" None [("className", AStr "radio-group")]
                [Arr (map (radio_item (selectedCollection s)) collections);
                 Tag "div" None [("className", AStr "description")]
                   [Tag "p" None [] [Text "cs.AI : Artificial Intelligence."];
                    Tag "p" None [] [Text "cs.CL : Computation and Language (NLP)."];
                    Tag "p" None []
                      [Text "cs.CV : Computer Vision and Pattern Recognition."];
                    Tag "p" None []
                      [Text "cs.LG : Machine Learning (dans la section informatique)."];
                    Tag "p" None []
                      [Text "stat.ML : Machine Learning (dans la section statistiques)."]]]];
           Tag "div" None [("className", AStr "form-section")]
             [Tag "label" None [("className", AStr "form-label")]
                [Text "Année de publication :"];
              Tag "input" None
                [("type", AStr "number"); ("value", AStr (year s));
                 ("onChange", AHandler h_setYear); ("className", AStr "form-input")] []];
           Tag "div" None [("className", AStr "form-section")]
             [Tag "label" None [("className", AStr "form-label")]
                [Text "Année de début :"];
              Tag "input" None
                [("type", AStr "number"); ("value", AStr (startYear s));
                 ("onChange", AHandler h_setStartYear);
                 ("className", AStr "form-input")] []];
           Tag "div" None [("className", AStr "form-section")]
             [Tag "label" None [("className", AStr "form-label")]
                [Text "Année de fin :"];
              Tag "input" None
                [("type", AStr "number"); ("value", AStr (endYear s));
                 ("onChange", AHandler h_setEndYear);
                 ("className", AStr "form-input")] []];
           Tag "button" None
             [("onClick", AHandler h_handleSearch); ("className", AStr "search-button")]
             [Text "Rechercher par critères"];
           Tag "div" None [("className", AStr "form-section")]
             [Tag "label" None [("className", AStr "form-label")]
                [Text "Recherche par similarité :"];
              Tag "input" None
                [("type", AStr "text"); ("value", AStr (queryString s));
                 ("onChange", AHandler h_setQueryString);
                 ("className", AStr "form-input")] [];
              Tag "button" None
                [("onClick", AHandler h_handleSimilaritySearch);
                 ("className", AStr "search-button")]
                [Text "Rechercher par similarité"]];
           error_line (error s);
           Tag "ul" None [("className", AStr "articles-list")] [Arr items]]];
     Tag "footer" None [("className", AStr "app-footer")]
       [Tag "p" None []
          [Text "© "; Val (Json (JNum fullYear));
           Text " TopSearch. All rights reserved."]]]).

(** ** Reading a view *)

(** Every element, value and array of a view, parents before children, in
    document order. *)
Fixpoint nodes (t : jsx) : list jsx :=
  t :: match t with
       | Tag _ _ _ children => flat_map nodes children
       | Val _ => []
       | Arr items => flat_map nodes items
       end.

Fixpoint attribute (name : string) (attrs : list (string * attr)) : option attr :=
  match attrs with
  | [] => None
  | (k, a) :: rest => if String.eqb k name then Some a else attribute name rest
  end.

Definition has_tag (name : string) (t : jsx) : bool :=
  match t with
  | Tag n _ _ _ => String.eqb n name
  | _ => false
  end.

Definition attrs_of (t : jsx) : list (string * attr) :=
  match t with
  | Tag _ _ attrs _ => attrs
  | _ => []
  end.

Definition children_of (t : jsx) : list jsx :=
  match t with
  | Tag _ _ _ children => children
  | _ => []
  end.

Definition key_of (t : jsx) : option value :=
  match t with
  | Tag _ key _ _ => key
  | _ => None
  end.

(** The [input] elements of one [type]. *)
Definition is_input (type : string) (t : jsx) : bool :=
  has_tag "input" t &&
  match attribute "type" (attrs_of t) with
  | Some (AStr ty) => String.eqb ty type
  | _ => false
  end.

Definition has_class (class : string) (t : jsx) : bool :=
  match attribute "className" (attrs_of t) with
  | Some (AStr c) => String.eqb c class
  | _ => false
  end.

(** The radio buttons of a view: value and [checked], in document order. *)
Definition radios (t : jsx) : list (option attr * option attr) :=
  map (λ i, (attribute "value" (attrs_of i), attribute "checked" (attrs_of i)))
      (List.filter (is_input "radio") (nodes t)).

(** The values of the radio buttons shown as checked. *)
Definition checked_values (t : jsx) : list (option attr) :=
  map fst (List.filter (λ r, match snd r with
                             | Some (ABool true) => true
                             | _ => false
                             end) (radios t)).

(** The text and number inputs of a view: handler and displayed value. *)
Definition fields (t : jsx) : list (option attr * option attr) :=
  map (λ i, (attribute "onChange" (attrs_of i), attribute "value" (attrs_of i)))
      (List.filter (λ i, is_input "number" i || is_input "text" i) (nodes t)).

(** The error paragraphs of a view. *)
Definition error_paragraphs (t : jsx) : list jsx :=
  List.filter (λ n, has_tag "p" n && has_class "error-message" n) (nodes t).


(** A result list the view can show: an array without [null]. *)
Definition showable (v : json) : Prop :=
  ∃ items, v = JArr items ∧ JNull ∉ items.

(** ** Sessions *)

(** One interaction: a control fires with an event, and the network of
    that moment settles the call the handler may send. *)
Record Interaction : Type := mkInteraction {
  control : Handler;
  event : ChangeEvent;
  network : Network
}.

(** The handler attached by the render of the current store runs to its
    end, the call it awaits included, before anything else happens. *)
Definition interact (w : World) (i : Interaction) : World :=
  exec (network i) (handler_prog (control i) (event i) (store w)) w.

Definition session (log : list Interaction) (w : World) : World :=
  fold_left interact log w.

(** The component after mount. *)
Definition mounted : World := mkWorld initial_state [] [].

(** A radio button can only report the value it was rendered with. *)
Definition from_view (i : Interaction) : Prop :=
  control i = h_handleCollectionChange → target_value (event i) ∈ collections.

(** ** Calls in flight *)

(** A handler suspended at [await]: the call it sent and what it does once
    the call settles. *)
Definition Pending : Type := (Request * (outcome -> prog))%type.

(** The synchronous part of a program: it runs up to the first [await],
    where the call is sent and the rest is left pending. *)
Fixpoint start (p : prog) (w : World) : World * option Pending :=
  match p with
  | Done => (w, None)
  | setSelectedCollection c k => start k (on_store (set_selectedCollection c) w)
  | setYear y k => start k (on_store (set_year y) w)
  | setStartYear y k => start k (on_store (set_startYear y) w)
  | setEndYear y k => start k (on_store (set_endYear y) w)
  | setQueryString q k => start k (on_store (set_queryString q) w)
  | setArticles v k => start k (on_store (set_articles v) w)
  | setError m k => start k (on_store (set_error m) w)
  | console_error e k => start k (mkWorld (store w) (sent w) (logged w ++ [e]))
  | AxiosGet u ps k =>
      let r := mkRequest GET u ps in
      (mkWorld (store w) (sent w ++ [r]) (logged w), Some (r, k))
  end.

(** The call of a pending handler settles: its continuation runs against
    the store of that moment. *)
Definition settle (pending : Pending) (o : outcome) (w : World) : World * option Pending :=
  start (snd pending o) w.

(** The call a criteria search of the render of [s] may send. *)
Definition criteria_call (s : State) (r : Request) : Prop :=
  meth r = GET ∧
  url r = "/collections/" +:+ selectedCollection s +:+ "/articles" ∧
  ∀ k v, params r !! k = Some v →
    v ≠ "" ∧ ((k = "year" ∧ v = year s) ∨ (k = "start_year" ∧ v = startYear s) ∨
              (k = "end_year" ∧ v = endYear s)).

(** The call a similarity search of the render of [s] may send. *)
Definition similarity_call (s : State) (r : Request) : Prop :=
  queryString s ≠ "" ∧
  r = mkRequest GET ("/collections/" +:+ selectedCollection s +:+ "/search")
        {[ "query_string" := queryString s ]}.

(** The messages the component can show. *)
Definition messages : list string :=
  [""; "Veuillez sélectionner une collection.";
   "Veuillez entrer un terme de recherche.";
   "Erreur lors de la récupération des articles.";
   "Erreur lors de la recherche par similarité."].

(** The controls that can send a call. *)
Definition may_call (h : Handler) : bool :=
  match h with
  | h_handleCollectionChange | h_handleSearch | h_handleSimilaritySearch => true
  | _ => false
  end.

(** ** General facts *)

Lemma truthy_true (s : string) : truthy s = true ↔ s ≠ "".
Proof. destruct s; simpl; split; intros; congruence. Qed.

Lemma truthy_false (s : string) : truthy s = false ↔ s = "".
Proof. destruct s; simpl; split; intros; congruence. Qed.

Ltac case_truthy t :=
  let E := fresh "E" in
  destruct (truthy t) eqn:E;
  [apply truthy_true in E | apply truthy_false in E].

Lemma string_app_length (a b : string) :
  String.length (a +:+ b) = String.length a + String.length b.
Proof. induction a as [|c a IH]; simpl; [done | by rewrite IH]. Qed.

Lemma prefixed_ne (a b : string) : a ≠ "" → a +:+ b ≠ b.
Proof.
  intros Ha Heq. apply (f_equal String.length) in Heq.
  rewrite string_app_length in Heq.
  destruct a as [|c a]; [done | simpl in Heq; lia].
Qed.

Lemma API_URL_nonempty (env : option string) : API_URL env ≠ "".
Proof.
  destruct env as [u|]; simpl; [|done].
  case_truthy u; done.
Qed.

(** The calls a program sends extend the calls already sent, and do not
    depend on the store it runs against. *)
Lemma exec_sent (net : Network) (p : prog) :
  ∀ w st, sent (exec net p w) = (sent w ++ sent (exec net p (mkWorld st [] [])))%list.
Proof.
  induction p as [|c k IH|y k IH|y k IH|y k IH|q k IH|v k IH|m k IH|e k IH|u ps k IH];
    intros w st; simpl;
    try (rewrite (IH _ st); symmetry; rewrite (IH _ st); done).
  - by rewrite app_nil_r.
  - rewrite (IH _ _ st). simpl. symmetry. rewrite (IH _ _ st). simpl.
    by rewrite <- app_assoc.
Qed.

Lemma exec_keeps_selection (net : Network) (p : prog) :
  keeps_selection p →
  ∀ w, selectedCollection (store (exec net p w)) = selectedCollection (store w).
Proof.
  induction 1 as [|y k _ IH|y k _ IH|y k _ IH|q k _ IH|v k _ IH|m k _ IH|e k _ IH
                  |u ps k _ IH]; intros w; simpl; try done;
    by rewrite IH.
Qed.

(** A program of the search operations leaves the five input slots alone. *)
Lemma exec_result_only (net : Network) (p : prog) :
  result_only p →
  ∀ w, same_criteria (store (exec net p w)) (store w) ∧
       queryString (store (exec net p w)) = queryString (store w).
Proof.
  unfold same_criteria.
  induction 1 as [|v k _ IH|m k _ IH|e k _ IH|u ps k _ IH]; intros w; simpl.
  - done.
  - apply (IH (on_store (set_articles v) w)).
  - apply (IH (on_store (set_error m) w)).
  - apply (IH (mkWorld (store w) (sent w) (logged w ++ [e]))).
  - apply (IH _ (mkWorld (store w) (sent w ++ [mkRequest GET u ps]) (logged w))).
Qed.

Lemma result_only_keeps_selection (p : prog) : result_only p → keeps_selection p.
Proof. induction 1; constructor; auto. Qed.

Lemma handleSearch_result_only (s : State) : result_only (handleSearch s).
Proof.
  unfold handleSearch. destruct (truthy (selectedCollection s)); simpl.
  - constructor. intros [data|err]; repeat constructor.
  - repeat constructor.
Qed.

Lemma handleSimilaritySearch_result_only (s : State) :
  result_only (handleSimilaritySearch s).
Proof.
  unfold handleSimilaritySearch.
  destruct (truthy (selectedCollection s)); simpl; [|repeat constructor].
  destruct (truthy (queryString s)); simpl; [|repeat constructor].
  constructor. intros [data|err]; repeat constructor.
Qed.

(** The calls of a criteria search are decided by the selection and the
    three date fields alone. *)
Lemma handleSearch_sent_criteria (net1 net2 : Network) (s1 s2 : State) :
  same_criteria s1 s2 →
  sent (dispatch net1 handleSearch s1) = sent (dispatch net2 handleSearch s2).
Proof.
  intros (Hc & Hy & Hs & He). unfold dispatch, handleSearch.
  rewrite Hc, Hy, Hs, He.
  destruct (truthy (selectedCollection s2)); simpl; [|done].
  set (r := mkRequest _ _ _).
  by destruct (net1 r), (net2 r).
Qed.

(** ** Criteria search *)

(** What a criteria search leaves behind once a collection is selected:
    one call, then the store update chosen by its settlement. *)
Lemma dispatch_handleSearch_selected (net : Network) (s : State) :
  selectedCollection s ≠ "" →
  ∃ ps : gmap string string,
    let r := mkRequest GET ("/collections/" +:+ selectedCollection s +:+ "/articles") ps in
    (∀ k, ps !! k =
          if decide (k = "end_year") then
            if truthy (endYear s) then Some (endYear s) else None
          else if decide (k = "start_year") then
            if truthy (startYear s) then Some (startYear s) else None
          else if decide (k = "year") then
            if truthy (year s) then Some (year s) else None
          else None) ∧
    dispatch net handleSearch s =
      match net r with
      | Resolved data => mkWorld (set_error "" (set_articles data s)) [r] []
      | Rejected err =>
          mkWorld (set_error "Erreur lors de la récupération des articles." s) [r] [err]
      end.
Proof.
  intros Hsel. apply truthy_true in Hsel.
  unfold dispatch, handleSearch. rewrite Hsel. simpl.
  match goal with |- context [mkRequest GET _ ?p] => exists p end.
  split; [|by destruct (net _)].
  intros k.
  destruct (truthy (endYear s)), (truthy (startYear s)), (truthy (year s));
    repeat (rewrite lookup_insert; case_decide; subst; simpl; try done);
    rewrite ?lookup_empty; repeat (case_decide; try done).
Qed.

Lemma dispatch_handleSearch_unselected (net : Network) (s : State) :
  selectedCollection s = "" →
  dispatch net handleSearch s =
    mkWorld (set_error "Veuillez sélectionner une collection." s) [] [].
Proof. intros Hsel. unfold dispatch, handleSearch. by rewrite Hsel. Qed.

(** C6: with no collection selected, the criteria search sends nothing,
    sets the error message to the fixed select-a-collection text and leaves
    the result list (and every other slot) as it was. *)
Theorem handleSearch_requires_collection (net : Network) (s : State) :
  selectedCollection s = "" →
  sent (dispatch net handleSearch s) = [] ∧
  error (store (dispatch net handleSearch s)) = "Veuillez sélectionner une collection." ∧
  articles (store (dispatch net handleSearch s)) = articles s ∧
  store (dispatch net handleSearch s) = set_error "Veuillez sélectionner une collection." s.
Proof.
  intros Hsel. by rewrite (dispatch_handleSearch_unselected net s Hsel).
Qed.

Lemma handleSearch_requires_collection_witness :
  let s := mkState "" "2020" "" "" "" (JArr [JObj [("id", JNum 1)]]) "" in
  let w := dispatch (λ _, Resolved (JArr [])) handleSearch s in
  sent w = [] ∧
  error (store w) = "Veuillez sélectionner une collection." ∧
  articles (store w) = JArr [JObj [("id", JNum 1)]] ∧
  store w = set_error "Veuillez sélectionner une collection." s.
Proof.
  exact (handleSearch_requires_collection (λ _, Resolved (JArr []))
           (mkState "" "2020" "" "" "" (JArr [JObj [("id", JNum 1)]]) "")
           eq_refl).
Defined.

(** C3: once a collection is selected, the criteria search sends one GET to
    [/collections/{collectionId}/articles] whose parameter set holds exactly
    the non-empty fields among year, start_year and end_year, each with the
    value of its field unchanged; an empty field has no entry at all. *)
Theorem handleSearch_params_exact (net : Network) (s : State) :
  selectedCollection s ≠ "" →
  ∃ ps : gmap string string,
    sent (dispatch net handleSearch s) =
      [mkRequest GET ("/collections/" +:+ selectedCollection s +:+ "/articles") ps] ∧
    ∀ k v, ps !! k = Some v ↔
      (k = "year" ∧ v = year s ∧ year s ≠ "") ∨
      (k = "start_year" ∧ v = startYear s ∧ startYear s ≠ "") ∨
      (k = "end_year" ∧ v = endYear s ∧ endYear s ≠ "").
Proof.
  intros Hsel.
  destruct (dispatch_handleSearch_selected net s Hsel) as (ps & Hps & Hw).
  exists ps. split.
  - simpl in Hw. rewrite Hw. by destruct (net _).
  - intros k v. rewrite Hps.
    rewrite <- !truthy_true.
    destruct (decide (k = "end_year")) as [->|?];
      [|destruct (decide (k = "start_year")) as [->|?];
        [|destruct (decide (k = "year")) as [->|?]]];
      destruct (truthy (year s)), (truthy (startYear s)), (truthy (endYear s));
      intuition congruence.
Qed.

Lemma handleSearch_params_exact_witness :
  ∃ ps : gmap string string,
    sent (dispatch (λ _, Resolved (JArr []))
            handleSearch (mkState "CsAI" "" "2019" "2021" "" (JArr []) "")) =
      [mkRequest GET "/collections/CsAI/articles" ps] ∧
    ps !! "year" = None ∧ ps !! "start_year" = Some "2019" ∧
    ps !! "end_year" = Some "2021".
Proof.
  destruct (handleSearch_params_exact (λ _, Resolved (JArr []))
              (mkState "CsAI" "" "2019" "2021" "" (JArr []) ""))
    as (ps & Hsent & Hps); [discriminate|].
  exists ps. split; [exact Hsent|]. simpl in Hps. repeat split.
  - destruct (ps !! "year") as [v|] eqn:E; [|reflexivity].
    apply Hps in E. destruct E as [(_ & _ & E)|[(E & _)|(E & _)]]; [done|discriminate..].
  - apply Hps. right. left. repeat split; discriminate.
  - apply Hps. right. right. repeat split; discriminate.
Defined.

(** C9: the calls of a criteria search, parameter set included, are a
    function of the view state that the search itself does not disturb:
    searching again from the state the first search left behind sends the
    same call with the same parameter set, whatever the network answered. *)
Theorem handleSearch_params_deterministic (net1 net2 : Network) (s : State) :
  sent (dispatch net2 handleSearch (store (dispatch net1 handleSearch s))) =
  sent (dispatch net1 handleSearch s) ∧
  map params (sent (dispatch net2 handleSearch (store (dispatch net1 handleSearch s)))) =
  map params (sent (dispatch net1 handleSearch s)).
Proof.
  assert (sent (dispatch net2 handleSearch (store (dispatch net1 handleSearch s))) =
          sent (dispatch net1 handleSearch s)) as Heq.
  { apply handleSearch_sent_criteria.
    apply (exec_result_only net1 (handleSearch s) (handleSearch_result_only s)
             (mkWorld s [] [])). }
  split; [exact Heq | by rewrite Heq].
Qed.

(** ** Similarity search *)

Lemma dispatch_handleSimilaritySearch_ready (net : Network) (s : State) :
  selectedCollection s ≠ "" → queryString s ≠ "" →
  let r := mkRequest GET ("/collections/" +:+ selectedCollection s +:+ "/search")
             {[ "query_string" := queryString s ]} in
  dispatch net handleSimilaritySearch s =
    match net r with
    | Resolved data => mkWorld (set_error "" (set_articles data s)) [r] []
    | Rejected err =>
        mkWorld (set_error "Erreur lors de la recherche par similarité." s) [r] [err]
    end.
Proof.
  intros Hsel Hq. apply truthy_true in Hsel, Hq.
  unfold dispatch, handleSimilaritySearch. rewrite Hsel, Hq. simpl.
  by destruct (net _).
Qed.

Lemma dispatch_handleSimilaritySearch_unselected (net : Network) (s : State) :
  selectedCollection s = "" →
  dispatch net handleSimilaritySearch s =
    mkWorld (set_error "Veuillez sélectionner une collection." s) [] [].
Proof. intros Hsel. unfold dispatch, handleSimilaritySearch. by rewrite Hsel. Qed.

Lemma dispatch_handleSimilaritySearch_no_term (net : Network) (s : State) :
  selectedCollection s ≠ "" → queryString s = "" →
  dispatch net handleSimilaritySearch s =
    mkWorld (set_error "Veuillez entrer un terme de recherche." s) [] [].
Proof.
  intros Hsel Hq. apply truthy_true in Hsel.
  unfold dispatch, handleSimilaritySearch. by rewrite Hsel, Hq.
Qed.

(** C5: the similarity search checks the collection first and the query
    string second.  With no collection it sets the select-a-collection
    error and sends nothing, whatever the query string is; with a collection
    and an empty query string it sets the enter-a-search-term error and
    sends nothing; with both it sends one GET to
    [/collections/{collectionId}/search] whose only parameter,
    [query_string], carries the query string. *)
Theorem handleSimilaritySearch_preconditions (net : Network) (s : State) :
  (selectedCollection s = "" →
     sent (dispatch net handleSimilaritySearch s) = [] ∧
     store (dispatch net handleSimilaritySearch s) =
       set_error "Veuillez sélectionner une collection." s) ∧
  (selectedCollection s ≠ "" → queryString s = "" →
     sent (dispatch net handleSimilaritySearch s) = [] ∧
     store (dispatch net handleSimilaritySearch s) =
       set_error "Veuillez entrer un terme de recherche." s) ∧
  (selectedCollection s ≠ "" → queryString s ≠ "" →
     sent (dispatch net handleSimilaritySearch s) =
       [mkRequest GET ("/collections/" +:+ selectedCollection s +:+ "/search")
          {[ "query_string" := queryString s ]}]).
Proof.
  split; [|split].
  - intros Hsel. by rewrite (dispatch_handleSimilaritySearch_unselected net s Hsel).
  - intros Hsel Hq. by rewrite (dispatch_handleSimilaritySearch_no_term net s Hsel Hq).
  - intros Hsel Hq.
    pose proof (dispatch_handleSimilaritySearch_ready net s Hsel Hq) as Hw.
    simpl in Hw. rewrite Hw. by destruct (net _).
Qed.

Lemma handleSimilaritySearch_preconditions_witness :
  let net : Network := λ _, Resolved (JArr []) in
  let s1 := mkState "" "" "" "" "transformers" (JArr []) "" in
  let s2 := mkState "CsCL" "" "" "" "" (JArr []) "" in
  let s3 := mkState "CsCL" "" "" "" "transformers" (JArr []) "" in
  (sent (dispatch net handleSimilaritySearch s1) = [] ∧
   store (dispatch net handleSimilaritySearch s1) =
     set_error "Veuillez sélectionner une collection." s1) ∧
  (sent (dispatch net handleSimilaritySearch s2) = [] ∧
   store (dispatch net handleSimilaritySearch s2) =
     set_error "Veuillez entrer un terme de recherche." s2) ∧
  sent (dispatch net handleSimilaritySearch s3) =
    [mkRequest GET "/collections/CsCL/search" {[ "query_string" := "transformers" ]}].
Proof.
  intros net s1 s2 s3. split; [|split].
  - apply (proj1 (handleSimilaritySearch_preconditions net s1)). reflexivity.
  - apply (proj1 (proj2 (handleSimilaritySearch_preconditions net s2)));
      [discriminate | reflexivity].
  - apply (proj2 (proj2 (handleSimilaritySearch_preconditions net s3))); discriminate.
Defined.

(** ** Outcome of a call *)

Lemma handleSearch_sent_inv (net : Network) (s : State) (r : Request) :
  sent (dispatch net handleSearch s) = [r] → selectedCollection s ≠ "".
Proof.
  intros Hsent Hsel.
  by rewrite (dispatch_handleSearch_unselected net s Hsel) in Hsent.
Qed.

Lemma handleSimilaritySearch_sent_inv (net : Network) (s : State) (r : Request) :
  sent (dispatch net handleSimilaritySearch s) = [r] →
  selectedCollection s ≠ "" ∧ queryString s ≠ "".
Proof.
  intros Hsent.
  destruct (decide (selectedCollection s = "")) as [Hsel|Hsel].
  { by rewrite (dispatch_handleSimilaritySearch_unselected net s Hsel) in Hsent. }
  split; [done|]. intros Hq.
  by rewrite (dispatch_handleSimilaritySearch_no_term net s Hsel Hq) in Hsent.
Qed.

(** The store and the console after a run whose single call settled as [o]. *)
Lemma handleSearch_settled (net : Network) (s : State) (r : Request) (o : outcome) :
  sent (dispatch net handleSearch s) = [r] → net r = o →
  dispatch net handleSearch s =
    match o with
    | Resolved data => mkWorld (set_error "" (set_articles data s)) [r] []
    | Rejected err =>
        mkWorld (set_error "Erreur lors de la récupération des articles." s) [r] [err]
    end.
Proof.
  intros Hsent Ho.
  destruct (dispatch_handleSearch_selected net s (handleSearch_sent_inv _ _ _ Hsent))
    as (ps & _ & Hw).
  simpl in Hw. rewrite Hw in Hsent |- *. clear Hw.
  destruct (net (mkRequest _ _ ps)) eqn:Hn; simpl in Hsent;
    injection Hsent as <-; rewrite Hn in Ho; by subst o.
Qed.

Lemma handleSimilaritySearch_settled
    (net : Network) (s : State) (r : Request) (o : outcome) :
  sent (dispatch net handleSimilaritySearch s) = [r] → net r = o →
  dispatch net handleSimilaritySearch s =
    match o with
    | Resolved data => mkWorld (set_error "" (set_articles data s)) [r] []
    | Rejected err =>
        mkWorld (set_error "Erreur lors de la recherche par similarité." s) [r] [err]
    end.
Proof.
  intros Hsent Ho.
  destruct (handleSimilaritySearch_sent_inv _ _ _ Hsent) as (Hsel & Hq).
  pose proof (dispatch_handleSimilaritySearch_ready net s Hsel Hq) as Hw.
  simpl in Hw. rewrite Hw in Hsent |- *. clear Hw.
  destruct (net (mkRequest _ _ _)) eqn:Hn; simpl in Hsent;
    injection Hsent as <-; rewrite Hn in Ho; by subst o.
Qed.

(** C4: when the call of either operation is rejected (transport failure or
    non-2xx status), the result list stays as it was and the error message
    becomes the fixed failure text of that operation; the two texts differ.
    The rejection value goes to the console only: the store after the run
    is the old store with the fixed text, whatever the rejection was. *)
Theorem failed_call_sets_fixed_error (net : Network) (s : State) (e : axios_error) :
  (call_rejected net (dispatch net handleSearch s) e →
     articles (store (dispatch net handleSearch s)) = articles s ∧
     error (store (dispatch net handleSearch s)) =
       "Erreur lors de la récupération des articles." ∧
     store (dispatch net handleSearch s) =
       set_error "Erreur lors de la récupération des articles." s ∧
     logged (dispatch net handleSearch s) = [e]) ∧
  (call_rejected net (dispatch net handleSimilaritySearch s) e →
     articles (store (dispatch net handleSimilaritySearch s)) = articles s ∧
     error (store (dispatch net handleSimilaritySearch s)) =
       "Erreur lors de la recherche par similarité." ∧
     store (dispatch net handleSimilaritySearch s) =
       set_error "Erreur lors de la recherche par similarité." s ∧
     logged (dispatch net handleSimilaritySearch s) = [e]) ∧
  "Erreur lors de la récupération des articles." ≠
    "Erreur lors de la recherche par similarité.".
Proof.
  split; [|split].
  - intros (r & Hsent & Hr). by rewrite (handleSearch_settled net s r _ Hsent Hr).
  - intros (r & Hsent & Hr).
    by rewrite (handleSimilaritySearch_settled net s r _ Hsent Hr).
  - discriminate.
Qed.

Lemma failed_call_sets_fixed_error_witness :
  let net : Network := λ _, Rejected (BadStatus 500 (JStr "Internal Server Error")) in
  let old := JArr [JObj [("id", JNum 1); ("title", JStr "A"); ("summary", JStr "S")]] in
  let s := mkState "CsLG" "2020" "" "" "graphs" old "" in
  (articles (store (dispatch net handleSearch s)) = old ∧
   error (store (dispatch net handleSearch s)) =
     "Erreur lors de la récupération des articles.") ∧
  (articles (store (dispatch net handleSimilaritySearch s)) = old ∧
   error (store (dispatch net handleSimilaritySearch s)) =
     "Erreur lors de la recherche par similarité.").
Proof.
  intros net old s.
  destruct (failed_call_sets_fixed_error net s
              (BadStatus 500 (JStr "Internal Server Error"))) as (H1 & H2 & _).
  split.
  - destruct H1 as (Ha & He & _); [|by split].
    eexists. split; reflexivity.
  - destruct H2 as (Ha & He & _); [|by split].
    eexists. split; reflexivity.
Defined.

(** C7: when the call of either operation succeeds, the result list
    becomes the response body, whatever it held before, and the error
    message becomes empty; no other slot changes. *)
Theorem successful_call_replaces_articles (net : Network) (s : State) (v : json) :
  (call_resolved net (dispatch net handleSearch s) v →
     articles (store (dispatch net handleSearch s)) = v ∧
     error (store (dispatch net handleSearch s)) = "" ∧
     store (dispatch net handleSearch s) = set_error "" (set_articles v s)) ∧
  (call_resolved net (dispatch net handleSimilaritySearch s) v →
     articles (store (dispatch net handleSimilaritySearch s)) = v ∧
     error (store (dispatch net handleSimilaritySearch s)) = "" ∧
     store (dispatch net handleSimilaritySearch s) = set_error "" (set_articles v s)).
Proof.
  split.
  - intros (r & Hsent & Hr). by rewrite (handleSearch_settled net s r _ Hsent Hr).
  - intros (r & Hsent & Hr).
    by rewrite (handleSimilaritySearch_settled net s r _ Hsent Hr).
Qed.

Lemma successful_call_replaces_articles_witness :
  let body := JArr [JObj [("id", JNum 1); ("title", JStr "A"); ("summary", JStr "S")]] in
  let net : Network := λ _, Resolved body in
  let s := mkState "CSCV" "" "" "" "pose"
             (JArr [JObj [("id", JNum 7); ("title", JStr "Old"); ("summary", JStr "O")]])
             "Erreur lors de la récupération des articles." in
  (articles (store (dispatch net handleSearch s)) = body ∧
   error (store (dispatch net handleSearch s)) = "") ∧
  (articles (store (dispatch net handleSimilaritySearch s)) = body ∧
   error (store (dispatch net handleSimilaritySearch s)) = "").
Proof.
  intros body net s.
  destruct (successful_call_replaces_articles net s body) as (H1 & H2).
  split.
  - destruct H1 as (Ha & He & _); [|by split].
    eexists. split; reflexivity.
  - destruct H2 as (Ha & He & _); [|by split].
    eexists. split; reflexivity.
Defined.

(** C10: a successful response body is stored as it comes.  For every JSON
    value [v], array or not, with or without [id], [title] and [summary],
    both operations leave the result list equal to [v] and the error
    message empty. *)
Theorem response_stored_unvalidated (net : Network) (s : State) (v : json) :
  (∀ r, net r = Resolved v) →
  selectedCollection s ≠ "" →
  (articles (store (dispatch net handleSearch s)) = v ∧
   error (store (dispatch net handleSearch s)) = "") ∧
  (queryString s ≠ "" →
   articles (store (dispatch net handleSimilaritySearch s)) = v ∧
   error (store (dispatch net handleSimilaritySearch s)) = "").
Proof.
  intros Hnet Hsel. split.
  - destruct (dispatch_handleSearch_selected net s Hsel) as (ps & _ & Hw).
    simpl in Hw. rewrite Hw, Hnet. done.
  - intros Hq.
    pose proof (dispatch_handleSimilaritySearch_ready net s Hsel Hq) as Hw.
    simpl in Hw. rewrite Hw, Hnet. done.
Qed.

Lemma response_stored_unvalidated_witness :
  let v1 := JObj [("detail", JStr "Not Found")] in
  let v2 := JArr [JObj [("id", JNum 1)]; JNull; JStr "x"] in
  let s := mkState "StatML" "" "" "" "bayes" (JArr []) "" in
  (articles (store (dispatch (λ _, Resolved v1) handleSearch s)) = v1 ∧
   articles (store (dispatch (λ _, Resolved v1) handleSimilaritySearch s)) = v1) ∧
  (articles (store (dispatch (λ _, Resolved v2) handleSearch s)) = v2 ∧
   articles (store (dispatch (λ _, Resolved v2) handleSimilaritySearch s)) = v2).
Proof.
  intros v1 v2 s. split.
  - destruct (response_stored_unvalidated (λ _, Resolved v1) s v1) as ((H1 & _) & H2);
      [reflexivity | discriminate |].
    split; [exact H1 | apply H2; discriminate].
  - destruct (response_stored_unvalidated (λ _, Resolved v2) s v2) as ((H1 & _) & H2);
      [reflexivity | discriminate |].
    split; [exact H1 | apply H2; discriminate].
Defined.

(** ** Frame *)

(** C8: neither search operation changes the selected collection.  Run
    against any store, after a precondition failure, a success or a failed
    call alike, the selection afterwards is the selection before; so it is
    for the store of the render that created the handler. *)
Theorem search_keeps_selection (net : Network) (s : State) (w : World) :
  selectedCollection (store (exec net (handleSearch s) w)) =
    selectedCollection (store w) ∧
  selectedCollection (store (exec net (handleSimilaritySearch s) w)) =
    selectedCollection (store w) ∧
  selectedCollection (store (dispatch net handleSearch s)) = selectedCollection s ∧
  selectedCollection (store (dispatch net handleSimilaritySearch s)) =
    selectedCollection s.
Proof.
  pose proof (result_only_keeps_selection _ (handleSearch_result_only s)) as H1.
  pose proof (result_only_keeps_selection _ (handleSimilaritySearch_result_only s)) as H2.
  repeat split.
  - apply exec_keeps_selection, H1.
  - apply exec_keeps_selection, H2.
  - apply (exec_keeps_selection net _ H1 (mkWorld s [] [])).
  - apply (exec_keeps_selection net _ H2 (mkWorld s [] [])).
Qed.

(** ** Selecting a collection *)

(** The store after a collection change holds the new selection. *)
Lemma handleCollectionChange_selects (net : Network) (ev : ChangeEvent) (s : State) :
  selectedCollection (store (dispatch net (handleCollectionChange ev) s)) =
  target_value ev.
Proof.
  unfold dispatch, handleCollectionChange. simpl.
  destruct (_ && _).
  - pose proof (result_only_keeps_selection _ (handleSearch_result_only s)) as H.
    by rewrite (exec_keeps_selection net _ H).
  - done.
Qed.

(** With a date filter filled in, a collection change sends nothing. *)
Lemma handleCollectionChange_filtered (net : Network) (ev : ChangeEvent) (s : State) :
  year s ≠ "" ∨ startYear s ≠ "" ∨ endYear s ≠ "" →
  dispatch net (handleCollectionChange ev) s =
    mkWorld (set_selectedCollection (target_value ev) s) [] [].
Proof.
  rewrite <- !truthy_true. unfold dispatch, handleCollectionChange. simpl.
  destruct (truthy (year s)), (truthy (startYear s)), (truthy (endYear s));
    simpl; intuition congruence.
Qed.

(** With the three date fields empty, a collection change runs the criteria
    search of the current render: its calls are those of a search from the
    snapshot [s], which still holds the selection made before the change. *)
Lemma handleCollectionChange_unfiltered (net : Network) (ev : ChangeEvent) (s : State) :
  year s = "" → startYear s = "" → endYear s = "" →
  sent (dispatch net (handleCollectionChange ev) s) = sent (dispatch net handleSearch s).
Proof.
  intros Hy Hs He. unfold dispatch, handleCollectionChange. simpl.
  rewrite Hy, Hs, He. simpl.
  by rewrite (exec_sent net (handleSearch s) _ s).
Qed.

(** C1, at two selections with all date fields empty.  The first selection
    after mount sends no call and shows the select-a-collection error; a
    later change from CSCV to CsAI sends its one call for CSCV, the
    collection selected before the change, not for CsAI. *)
Theorem handleCollectionChange_searches_previous_selection (net : Network) :
  let w0 := dispatch net (handleCollectionChange (mkChangeEvent "CSCV")) initial_state in
  let s1 := set_selectedCollection "CSCV" initial_state in
  let w1 := dispatch net (handleCollectionChange (mkChangeEvent "CsAI")) s1 in
  (selectedCollection (store w0) = "CSCV" ∧ sent w0 = [] ∧
   error (store w0) = "Veuillez sélectionner une collection.") ∧
  (selectedCollection (store w1) = "CsAI" ∧
   sent w1 = [mkRequest GET "/collections/CSCV/articles" ∅]).
Proof.
  simpl. split; [done|]. unfold dispatch. simpl.
  by destruct (net _).
Qed.

(** ** Request addresses and [API_URL] *)

(** C2 as stated fails: with CSCV selected and no setting in the
    environment, the criteria search calls [/collections/CSCV/articles],
    not [http://localhost:8000/collections/CSCV/articles]. *)
Lemma search_url_without_base :
  ¬ (∀ r : Request,
       r ∈ sent (dispatch (λ _, Resolved (JArr [])) handleSearch
                   (set_selectedCollection "CSCV" initial_state)) →
       url r = API_URL None +:+ "/collections/CSCV/articles").
Proof.
  intros H.
  specialize (H (mkRequest GET "/collections/CSCV/articles" ∅)).
  simpl in H. discriminate H. apply list_elem_of_here.
Qed.

(** C2, amended: every call of both search operations is addressed by the
    relative path of the operation itself, [/collections/{id}/articles] or
    [/collections/{id}/search]; whatever the deployment setting is, the
    address is not that path behind [API_URL]. *)
Theorem search_urls_are_relative
    (env : option string) (net : Network) (s : State) (r : Request) :
  (r ∈ sent (dispatch net handleSearch s) →
     url r = "/collections/" +:+ selectedCollection s +:+ "/articles" ∧
     url r ≠ API_URL env +:+ ("/collections/" +:+ selectedCollection s +:+ "/articles")) ∧
  (r ∈ sent (dispatch net handleSimilaritySearch s) →
     url r = "/collections/" +:+ selectedCollection s +:+ "/search" ∧
     url r ≠ API_URL env +:+ ("/collections/" +:+ selectedCollection s +:+ "/search")).
Proof.
  assert (∀ p : string, p ≠ API_URL env +:+ p) as Hne.
  { intros p Hp. symmetry in Hp. exact (prefixed_ne _ _ (API_URL_nonempty env) Hp). }
  split; intros Hr.
  - destruct (decide (selectedCollection s = "")) as [Hsel|Hsel].
    { rewrite (dispatch_handleSearch_unselected net s Hsel) in Hr.
      by apply not_elem_of_nil in Hr. }
    destruct (dispatch_handleSearch_selected net s Hsel) as (ps & _ & Hw).
    simpl in Hw. rewrite Hw in Hr.
    assert (r = mkRequest GET
                  ("/collections/" +:+ selectedCollection s +:+ "/articles") ps) as ->.
    { destruct (net _); simpl in Hr; by apply list_elem_of_singleton in Hr. }
    split; [done | apply Hne].
  - destruct (decide (selectedCollection s = "")) as [Hsel|Hsel].
    { rewrite (dispatch_handleSimilaritySearch_unselected net s Hsel) in Hr.
      by apply not_elem_of_nil in Hr. }
    destruct (decide (queryString s = "")) as [Hq|Hq].
    { rewrite (dispatch_handleSimilaritySearch_no_term net s Hsel Hq) in Hr.
      by apply not_elem_of_nil in Hr. }
    pose proof (dispatch_handleSimilaritySearch_ready net s Hsel Hq) as Hw.
    simpl in Hw. rewrite Hw in Hr.
    assert (r = mkRequest GET ("/collections/" +:+ selectedCollection s +:+ "/search")
                  {[ "query_string" := queryString s ]}) as ->.
    { destruct (net _); simpl in Hr; by apply list_elem_of_singleton in Hr. }
    split; [done | apply Hne].
Qed.

Lemma search_urls_are_relative_witness :
  let env := Some "https://api.topsearch.example" in
  let net : Network := λ _, Resolved (JArr []) in
  let s := mkState "CsLG" "" "" "" "attention" (JArr []) "" in
  (url (mkRequest GET "/collections/CsLG/articles" ∅) = "/collections/CsLG/articles" ∧
   url (mkRequest GET "/collections/CsLG/articles" ∅) ≠
     "https://api.topsearch.example/collections/CsLG/articles") ∧
  (url (mkRequest GET "/collections/CsLG/search" {[ "query_string" := "attention" ]}) =
     "/collections/CsLG/search" ∧
   url (mkRequest GET "/collections/CsLG/search" {[ "query_string" := "attention" ]}) ≠
     "https://api.topsearch.example/collections/CsLG/search").
Proof.
  intros env net s. split.
  - apply (proj1 (search_urls_are_relative env net s
                    (mkRequest GET "/collections/CsLG/articles" ∅))).
    apply list_elem_of_here.
  - apply (proj2 (search_urls_are_relative env net s
                    (mkRequest GET "/collections/CsLG/search"
                       {[ "query_string" := "attention" ]}))).
    apply list_elem_of_here.
Defined.

(** ** Running from any world *)

(** A run only adds to what was sent and logged before it; what it adds,
    and the store it leaves, are those of the same run on a clean slate. *)
Lemma exec_frame (net : Network) (p : prog) :
  ∀ w, exec net p w =
       let d := exec net p (mkWorld (store w) [] []) in
       mkWorld (store d) (sent w ++ sent d) (logged w ++ logged d).
Proof.
  induction p as [|c k IH|y k IH|y k IH|y k IH|q k IH|v k IH|m k IH|e k IH|u ps k IH];
    intros w; simpl;
    try (rewrite IH; simpl; reflexivity).
  - destruct w; simpl. by rewrite !app_nil_r.
  - rewrite IH. simpl. symmetry. rewrite IH. simpl.
    by rewrite <- app_assoc.
  - rewrite IH. simpl. symmetry. rewrite IH. simpl.
    by rewrite <- app_assoc.
Qed.

Lemma interact_frame (w : World) (i : Interaction) :
  interact w i =
    let d := dispatch (network i) (handler_prog (control i) (event i)) (store w) in
    mkWorld (store d) (sent w ++ sent d) (logged w ++ logged d).
Proof. unfold interact. by rewrite exec_frame. Qed.

Lemma session_snoc (log : list Interaction) (i : Interaction) (w : World) :
  session (log ++ [i])%list w = interact (session log w) i.
Proof. unfold session. by rewrite fold_left_app. Qed.

(** A property kept by every interaction holds after every session. *)
Lemma session_ind (P : list Interaction → World → Prop) (w : World) :
  P [] w →
  (∀ log i w', P log w' → P (log ++ [i])%list (interact w' i)) →
  ∀ log, P log (session log w).
Proof.
  intros H0 Hstep log. induction log as [|i log IH] using rev_ind; [done|].
  rewrite session_snoc. by apply Hstep.
Qed.

(** Setting the selection first or last is the same for a program that
    only touches the result list and the error message. *)
Lemma exec_result_only_selects (net : Network) (c : string) (p : prog) :
  result_only p →
  ∀ w, exec net p (on_store (set_selectedCollection c) w) =
       on_store (set_selectedCollection c) (exec net p w).
Proof.
  induction 1 as [|v k _ IH|m k _ IH|e k _ IH|u ps k _ IH]; intros w; simpl.
  - done.
  - apply (IH (on_store (set_articles v) w)).
  - apply (IH (on_store (set_error m) w)).
  - apply (IH (mkWorld (store w) (sent w) (logged w ++ [e]))).
  - apply (IH _ (mkWorld (store w) (sent w ++ [mkRequest GET u ps]) (logged w))).
Qed.

(** A collection change is the criteria search of the current render,
    with the new selection stored, or the new selection alone. *)
Lemma dispatch_handleCollectionChange (net : Network) (ev : ChangeEvent) (s : State) :
  dispatch net (handleCollectionChange ev) s =
    if negb (truthy (year s)) && negb (truthy (startYear s)) && negb (truthy (endYear s))
    then on_store (set_selectedCollection (target_value ev)) (dispatch net handleSearch s)
    else mkWorld (set_selectedCollection (target_value ev) s) [] [].
Proof.
  unfold dispatch, handleCollectionChange. simpl.
  destruct (_ && _); [|done].
  apply (exec_result_only_selects net _ _ (handleSearch_result_only s) (mkWorld s [] [])).
Qed.

(** The possible outcomes of a criteria search. *)
Lemma dispatch_handleSearch_cases (net : Network) (s : State) :
  (selectedCollection s = "" ∧
   dispatch net handleSearch s =
     mkWorld (set_error "Veuillez sélectionner une collection." s) [] []) ∨
  (selectedCollection s ≠ "" ∧
   ∃ ps : gmap string string,
     let r := mkRequest GET ("/collections/" +:+ selectedCollection s +:+ "/articles") ps in
     (∀ k v, ps !! k = Some v →
        v ≠ "" ∧ ((k = "year" ∧ v = year s) ∨ (k = "start_year" ∧ v = startYear s) ∨
                  (k = "end_year" ∧ v = endYear s))) ∧
     ((∃ data, net r = Resolved data ∧
         dispatch net handleSearch s =
           mkWorld (set_error "" (set_articles data s)) [r] []) ∨
      (∃ err, net r = Rejected err ∧
         dispatch net handleSearch s =
           mkWorld (set_error "Erreur lors de la récupération des articles." s)
                   [r] [err]))).
Proof.
  destruct (decide (selectedCollection s = "")) as [Hsel|Hsel].
  { left. split; [done|]. by apply dispatch_handleSearch_unselected. }
  right. split; [done|].
  destruct (dispatch_handleSearch_selected net s Hsel) as (ps & Hps & Hw).
  exists ps. simpl in *. split.
  - intros k v. rewrite Hps.
    destruct (decide (k = "end_year")) as [->|?];
      [|destruct (decide (k = "start_year")) as [->|?];
        [|destruct (decide (k = "year")) as [->|?]]];
      try done;
      match goal with |- context [truthy ?t] => case_truthy t end;
      intros [= <-]; split; auto.
  - rewrite Hw. destruct (net _) as [data|err]; [left|right]; eauto.
Qed.

(** The possible outcomes of a similarity search. *)
Lemma dispatch_handleSimilaritySearch_cases (net : Network) (s : State) :
  (selectedCollection s = "" ∧
   dispatch net handleSimilaritySearch s =
     mkWorld (set_error "Veuillez sélectionner une collection." s) [] []) ∨
  (selectedCollection s ≠ "" ∧ queryString s = "" ∧
   dispatch net handleSimilaritySearch s =
     mkWorld (set_error "Veuillez entrer un terme de recherche." s) [] []) ∨
  (selectedCollection s ≠ "" ∧ queryString s ≠ "" ∧
   let r := mkRequest GET ("/collections/" +:+ selectedCollection s +:+ "/search")
              {[ "query_string" := queryString s ]} in
   ((∃ data, net r = Resolved data ∧
       dispatch net handleSimilaritySearch s =
         mkWorld (set_error "" (set_articles data s)) [r] []) ∨
    (∃ err, net r = Rejected err ∧
       dispatch net handleSimilaritySearch s =
         mkWorld (set_error "Erreur lors de la recherche par similarité." s)
                 [r] [err]))).
Proof.
  destruct (decide (selectedCollection s = "")) as [Hsel|Hsel].
  { left. split; [done|]. by apply dispatch_handleSimilaritySearch_unselected. }
  right. destruct (decide (queryString s = "")) as [Hq|Hq].
  { left. repeat split; [done..|]. by apply dispatch_handleSimilaritySearch_no_term. }
  right. repeat split; [done..|].
  pose proof (dispatch_handleSimilaritySearch_ready net s Hsel Hq) as Hw.
  simpl in *. rewrite Hw. destruct (net _) as [data|err]; [left|right]; eauto.
Qed.

(** What one interaction with the render of [s] can do, whatever the
    control, the event and the network. *)
Lemma dispatch_summary (net : Network) (h : Handler) (e : ChangeEvent) (s : State) :
  let d := dispatch net (handler_prog h e) s in
  (sent d = [] ∨
   ∃ r, sent d = [r] ∧ may_call h = true ∧ selectedCollection s ≠ "" ∧
        (criteria_call s r ∨ similarity_call s r)) ∧
  (logged d = [] ∨ ∃ r err, sent d = [r] ∧ logged d = [err] ∧ net r = Rejected err) ∧
  (error (store d) = error s ∨ error (store d) ∈ messages) ∧
  (articles (store d) = articles s ∨
   ∃ r, sent d = [r] ∧ net r = Resolved (articles (store d))) ∧
  (selectedCollection (store d) = selectedCollection s ∨
   h = h_handleCollectionChange ∧ selectedCollection (store d) = target_value e).
Proof.
  assert (∀ m, m ∈ messages ↔
            m = "" ∨ m = "Veuillez sélectionner une collection." ∨
            m = "Veuillez entrer un terme de recherche." ∨
            m = "Erreur lors de la récupération des articles." ∨
            m = "Erreur lors de la recherche par similarité.") as Hmsg.
  { intros m. unfold messages. rewrite !elem_of_cons, elem_of_nil. tauto. }
  destruct h; simpl;
    try (repeat split; by left).
  - rewrite dispatch_handleCollectionChange.
    destruct (_ && _); simpl; [|repeat split; auto].
    destruct (dispatch_handleSearch_cases net s)
      as [(Hsel & ->)|(Hsel & ps & Hps & [(data & Hn & ->)|(err & Hn & ->)])]; simpl;
      (split; [|split; [|split; [|split]]]);
      try (by left); try (right; apply Hmsg; tauto); try (right; by eauto);
      right; eexists; (split; [done|split; [done|split; [done|]]]);
      left; (split; [done|split; [done|exact Hps]]).
  - destruct (dispatch_handleSearch_cases net s)
      as [(Hsel & ->)|(Hsel & ps & Hps & [(data & Hn & ->)|(err & Hn & ->)])]; simpl;
      (split; [|split; [|split; [|split]]]);
      try (by left); try (right; apply Hmsg; tauto); try (right; by eauto);
      right; eexists; (split; [done|split; [done|split; [done|]]]);
      left; (split; [done|split; [done|exact Hps]]).
  - destruct (dispatch_handleSimilaritySearch_cases net s)
      as [(Hsel & ->)|[(Hsel & Hq & ->)|(Hsel & Hq & [(data & Hn & ->)|(err & Hn & ->)])]];
      simpl;
      (split; [|split; [|split; [|split]]]);
      try (by left); try (right; apply Hmsg; tauto); try (right; by eauto);
      right; eexists; (split; [done|split; [done|split; [done|]]]);
      right; by split.
Qed.

(** ** Sessions from mount *)

(** X1: whatever the user does and whatever the network answers, the error
    message on screen is always one of five fixed texts (the empty one
    included); nothing a response or a rejection carries ever reaches it. *)
Theorem session_error_is_fixed_text (log : list Interaction) :
  error (store (session log mounted)) ∈ messages.
Proof.
  apply (session_ind (λ _ w, error (store w) ∈ messages)).
  - simpl. apply list_elem_of_here.
  - intros _ i w IH. rewrite interact_frame. simpl.
    destruct (dispatch_summary (network i) (control i) (event i) (store w))
      as (_ & _ & [He|He] & _); simpl in He; [by rewrite He | done].
Qed.

(** X2: as long as the radio buttons report the values they were rendered
    with, the selection is empty or one of the five collections, and every
    call ever sent is addressed to [/collections/{c}/articles] or
    [/collections/{c}/search] for one of the five collections [c]. *)
Theorem session_calls_target_collections (log : list Interaction) :
  Forall from_view log →
  selectedCollection (store (session log mounted)) ∈ "" :: collections ∧
  Forall (λ r, ∃ c, c ∈ collections ∧
                    (url r = "/collections/" +:+ c +:+ "/articles" ∨
                     url r = "/collections/" +:+ c +:+ "/search"))
         (sent (session log mounted)).
Proof.
  apply (session_ind (λ log w,
    Forall from_view log →
    selectedCollection (store w) ∈ "" :: collections ∧
    Forall (λ r, ∃ c, c ∈ collections ∧
                      (url r = "/collections/" +:+ c +:+ "/articles" ∨
                       url r = "/collections/" +:+ c +:+ "/search")) (sent w))).
  - intros _. split; [apply list_elem_of_here | constructor].
  - intros log' i w IH Hlog. apply Forall_app in Hlog as (Hlog & Hi).
    apply Forall_inv in Hi. destruct (IH Hlog) as (Hsel & Hsent).
    rewrite interact_frame. simpl.
    destruct (dispatch_summary (network i) (control i) (event i) (store w))
      as (Hs & _ & _ & _ & Hc); simpl in Hs, Hc. split.
    + destruct Hc as [->|(Hh & ->)]; [done|].
      apply elem_of_cons. right. by apply Hi.
    + apply Forall_app. split; [done|].
      destruct Hs as [->|(r & -> & _ & Hne & Hr)]; [constructor|].
      apply Forall_singleton. exists (selectedCollection (store w)). split.
      * apply elem_of_cons in Hsel as [Hsel|Hsel]; [done | exact Hsel].
      * destruct Hr as [(_ & Hu & _)|(_ & ->)]; [by left | by right].
Qed.

Lemma session_calls_target_collections_witness :
  let ok : Network := λ _, Resolved (JArr []) in
  let log := [mkInteraction h_handleCollectionChange (mkChangeEvent "CsCL") ok;
              mkInteraction h_setQueryString (mkChangeEvent "parsing") ok;
              mkInteraction h_handleSimilaritySearch (mkChangeEvent "") ok] in
  selectedCollection (store (session log mounted)) ∈ "" :: collections ∧
  Forall (λ r, ∃ c, c ∈ collections ∧
                    (url r = "/collections/" +:+ c +:+ "/articles" ∨
                     url r = "/collections/" +:+ c +:+ "/search"))
         (sent (session log mounted)).
Proof.
  intros ok log. apply (session_calls_target_collections log).
  repeat constructor; unfold from_view; simpl; discriminate.
Defined.

(** X3: every call ever sent is a GET, never carries a parameter with an
    empty value, and uses no parameter name besides [year], [start_year],
    [end_year] and [query_string]. *)
Theorem session_calls_well_formed (log : list Interaction) :
  Forall (λ r, meth r = GET ∧
               ∀ k v, params r !! k = Some v →
                      v ≠ "" ∧ k ∈ ["year"; "start_year"; "end_year"; "query_string"])
         (sent (session log mounted)).
Proof.
  apply (session_ind (λ _ w,
    Forall (λ r, meth r = GET ∧
                 ∀ k v, params r !! k = Some v →
                        v ≠ "" ∧ k ∈ ["year"; "start_year"; "end_year"; "query_string"])
           (sent w))).
  - constructor.
  - intros _ i w IH. rewrite interact_frame. simpl.
    apply Forall_app. split; [done|].
    destruct (dispatch_summary (network i) (control i) (event i) (store w))
      as ([->|(r & -> & _ & _ & Hr)] & _); [constructor|].
    apply Forall_singleton.
    destruct Hr as [(Hm & _ & Hps)|(Hq & ->)]; (split; [done|]); intros k v Hkv.
    + destruct (Hps k v Hkv) as (Hv & [(-> & _)|[(-> & _)|(-> & _)]]);
        (split; [done|]); rewrite !elem_of_cons; tauto.
    + simpl in Hkv. apply lookup_singleton_Some in Hkv as (<- & <-).
      split; [done|]. rewrite !elem_of_cons; tauto.
Qed.

(** X4: an interaction sends at most one call, and only a collection
    change or one of the two search buttons can send one; the console
    receives at most one entry per call.  So after any session the console
    holds no more entries than calls were sent, and no more calls were sent
    than such controls fired. *)
Theorem session_call_count (log : list Interaction) :
  (length (logged (session log mounted)) ≤ length (sent (session log mounted)))%nat ∧
  (length (sent (session log mounted)) ≤
     length (filter (λ i, may_call (control i) = true) log))%nat.
Proof.
  apply (session_ind (λ log w,
    (length (logged w) ≤ length (sent w))%nat ∧
    (length (sent w) ≤ length (filter (λ i, may_call (control i) = true) log))%nat)).
  - simpl. lia.
  - intros log' i w (IH1 & IH2). rewrite interact_frame. simpl.
    rewrite filter_app, !length_app.
    destruct (dispatch_summary (network i) (control i) (event i) (store w))
      as (Hs & Hl & _); simpl in Hs, Hl.
    assert (length (logged (dispatch (network i) (handler_prog (control i) (event i))
                              (store w))) ≤
            length (sent (dispatch (network i) (handler_prog (control i) (event i))
                            (store w))))%nat as Hle.
    { destruct Hl as [->|(r & err & -> & -> & _)]; simpl; lia. }
    split; [lia|].
    destruct Hs as [->|(r & -> & Hmay & _)]; simpl; [lia|].
    rewrite filter_cons_True by done. simpl. lia.
Qed.


(** ** Interactions in a row *)

(** The four inputs store what was typed and nothing else. *)
Lemma dispatch_typing (net : Network) (h : Handler) (e : ChangeEvent) (s : State) :
  may_call h = false →
  dispatch net (handler_prog h e) s =
    mkWorld (match h with
             | h_setYear => set_year (target_value e) s
             | h_setStartYear => set_startYear (target_value e) s
             | h_setEndYear => set_endYear (target_value e) s
             | _ => set_queryString (target_value e) s
             end) [] [].
Proof. by destruct h. Qed.

(** The store a collection change leaves: the new selection, the inputs
    as they were. *)
Lemma handleCollectionChange_store (net : Network) (ev : ChangeEvent) (s : State) :
  let s' := store (dispatch net (handleCollectionChange ev) s) in
  selectedCollection s' = target_value ev ∧ year s' = year s ∧
  startYear s' = startYear s ∧ endYear s' = endYear s ∧
  queryString s' = queryString s.
Proof.
  simpl. rewrite dispatch_handleCollectionChange.
  destruct (_ && _); simpl; [|done].
  destruct (exec_result_only net _ (handleSearch_result_only s) (mkWorld s [] []))
    as ((_ & Hy & Hs & He) & Hq).
  by repeat split.
Qed.

(** X6: with a value in any of the three date fields, changing the
    collection sends no call and writes nothing to the console; it stores
    the new selection and leaves every other slot, the result list and the
    error message included, as it was. *)
Theorem collection_change_with_filter (net : Network) (ev : ChangeEvent) (s : State) :
  year s ≠ "" ∨ startYear s ≠ "" ∨ endYear s ≠ "" →
  sent (dispatch net (handleCollectionChange ev) s) = [] ∧
  logged (dispatch net (handleCollectionChange ev) s) = [] ∧
  store (dispatch net (handleCollectionChange ev) s) =
    set_selectedCollection (target_value ev) s.
Proof.
  intros Hf. rewrite dispatch_handleCollectionChange.
  rewrite <- !truthy_true in Hf.
  destruct (truthy (year s)), (truthy (startYear s)), (truthy (endYear s));
    simpl; try done; intuition congruence.
Qed.

Lemma collection_change_with_filter_witness :
  let s := mkState "CSCV" "" "" "2021" "" (JArr [JStr "kept"]) "kept" in
  let d := dispatch (λ _, Resolved (JArr [])) (handleCollectionChange (mkChangeEvent "CsAI")) s in
  sent d = [] ∧ logged d = [] ∧
  store d = mkState "CsAI" "" "" "2021" "" (JArr [JStr "kept"]) "kept".
Proof.
  intros s d.
  apply (collection_change_with_filter (λ _, Resolved (JArr []))
           (mkChangeEvent "CsAI") s).
  right. right. discriminate.
Defined.

(** X7: with the three date fields empty, changing the collection stores
    the new selection, sends at most one call, a GET without any
    parameter, and otherwise leaves the store as the criteria search of
    the current render leaves it. *)
Theorem collection_change_without_filter
    (net : Network) (ev : ChangeEvent) (s : State) :
  year s = "" → startYear s = "" → endYear s = "" →
  let d := dispatch net (handleCollectionChange ev) s in
  store d = set_selectedCollection (target_value ev) (store (dispatch net handleSearch s)) ∧
  (length (sent d) ≤ 1)%nat ∧
  Forall (λ r, meth r = GET ∧ params r = ∅) (sent d).
Proof.
  intros Hy Hs He. simpl. rewrite dispatch_handleCollectionChange.
  rewrite Hy, Hs, He. simpl. split; [done|].
  assert (∀ ps : gmap string string,
            (∀ k v, ps !! k = Some v →
               v ≠ "" ∧ ((k = "year" ∧ v = year s) ∨ (k = "start_year" ∧ v = startYear s) ∨
                         (k = "end_year" ∧ v = endYear s))) → ps = ∅) as Hempty.
  { intros ps Hps. apply map_eq. intros k. rewrite lookup_empty.
    destruct (ps !! k) as [v|] eqn:Hk; [|done].
    destruct (Hps k v Hk) as (Hv & [(_ & Hv')|[(_ & Hv')|(_ & Hv')]]); congruence. }
  destruct (dispatch_handleSearch_cases net s)
    as [(Hsel & ->)|(Hsel & ps & Hps & [(data & _ & ->)|(err & _ & ->)])]; simpl.
  - split; [lia | constructor].
  - split; [lia|]. apply Forall_singleton. split; [done|]. by apply Hempty.
  - split; [lia|]. apply Forall_singleton. split; [done|]. by apply Hempty.
Qed.

Lemma collection_change_without_filter_witness :
  let net : Network := λ _, Resolved (JArr [JObj [("id", JNum 3)]]) in
  let s := mkState "CsLG" "" "" "" "" (JArr []) "" in
  let d := dispatch net (handleCollectionChange (mkChangeEvent "CsCL")) s in
  store d = set_selectedCollection "CsCL" (store (dispatch net handleSearch s)) ∧
  (length (sent d) ≤ 1)%nat ∧
  Forall (λ r, meth r = GET ∧ params r = ∅) (sent d).
Proof.
  intros net s d.
  exact (collection_change_without_filter net (mkChangeEvent "CsCL") s
           eq_refl eq_refl eq_refl).
Defined.

(** X8: after a collection change to a non-empty value, the searches of
    the next render are addressed to the newly selected collection: the
    criteria search sends one GET to [/collections/{new}/articles], and the
    similarity search, with a query string present, one GET to
    [/collections/{new}/search] carrying that query string. *)
Theorem search_after_collection_change
    (net1 net2 : Network) (ev : ChangeEvent) (s : State) :
  target_value ev ≠ "" →
  let s' := store (dispatch net1 (handleCollectionChange ev) s) in
  (∃ ps, sent (dispatch net2 handleSearch s') =
           [mkRequest GET ("/collections/" +:+ target_value ev +:+ "/articles") ps]) ∧
  (queryString s ≠ "" →
   sent (dispatch net2 handleSimilaritySearch s') =
     [mkRequest GET ("/collections/" +:+ target_value ev +:+ "/search")
        {[ "query_string" := queryString s ]}]).
Proof.
  intros Hc. simpl.
  destruct (handleCollectionChange_store net1 ev s) as (Hsel & _ & _ & _ & Hq).
  simpl in Hsel, Hq. split.
  - destruct (dispatch_handleSearch_cases net2
                (store (dispatch net1 (handleCollectionChange ev) s)))
      as [(Hsel' & _)|(_ & ps & _ & [(data & _ & ->)|(err & _ & ->)])].
    + congruence.
    + exists ps. simpl. by rewrite Hsel.
    + exists ps. simpl. by rewrite Hsel.
  - intros Hq'.
    destruct (dispatch_handleSimilaritySearch_cases net2
                (store (dispatch net1 (handleCollectionChange ev) s)))
      as [(Hsel' & _)|[(_ & Hq'' & _)|(_ & _ & [(data & _ & ->)|(err & _ & ->)])]];
      try congruence; simpl; by rewrite Hsel, Hq.
Qed.

Lemma search_after_collection_change_witness :
  let net : Network := λ _, Rejected (NetworkError "offline") in
  let s := mkState "" "" "" "" "diffusion" (JArr []) "" in
  let s' := store (dispatch net (handleCollectionChange (mkChangeEvent "CSCV")) s) in
  (∃ ps, sent (dispatch net handleSearch s') =
           [mkRequest GET "/collections/CSCV/articles" ps]) ∧
  sent (dispatch net handleSimilaritySearch s') =
    [mkRequest GET "/collections/CSCV/search" {[ "query_string" := "diffusion" ]}].
Proof.
  intros net s s'.
  destruct (search_after_collection_change net net (mkChangeEvent "CSCV") s)
    as (H1 & H2); [discriminate|].
  split; [exact H1 | apply H2; discriminate].
Defined.

(** X9: once a non-empty value has been typed into any of the three date
    inputs, changing the collection in the next render sends no call, it
    only stores the new selection. *)
Theorem typed_date_stops_auto_search
    (net1 net2 : Network) (h : Handler) (e ev : ChangeEvent) (s : State) :
  h ∈ [h_setYear; h_setStartYear; h_setEndYear] →
  target_value e ≠ "" →
  let s' := store (dispatch net1 (handler_prog h e) s) in
  dispatch net2 (handleCollectionChange ev) s' =
    mkWorld (set_selectedCollection (target_value ev) s') [] [].
Proof.
  intros Hh He. simpl.
  rewrite dispatch_handleCollectionChange.
  apply truthy_true in He.
  rewrite !elem_of_cons, elem_of_nil in Hh.
  destruct Hh as [->|[->|[->|[]]]]; simpl; rewrite He; simpl;
    by rewrite ?andb_false_r.
Qed.

Lemma typed_date_stops_auto_search_witness :
  let net : Network := λ _, Resolved (JArr []) in
  let s := mkState "CsAI" "" "" "" "" (JArr []) "" in
  let s' := store (dispatch net (handler_prog h_setStartYear (mkChangeEvent "2018")) s) in
  dispatch net (handleCollectionChange (mkChangeEvent "CsLG")) s' =
    mkWorld (set_selectedCollection "CsLG" s') [] [].
Proof.
  intros net s s'.
  apply (typed_date_stops_auto_search net net h_setStartYear
           (mkChangeEvent "2018") (mkChangeEvent "CsLG") s).
  - apply list_elem_of_further, list_elem_of_here.
  - discriminate.
Defined.

(** X10: what is typed into the query input is what the similarity search
    of the next render sends: with a collection selected and a non-empty
    text, one GET to [/collections/{id}/search] whose [query_string] is
    the typed text, character for character. *)
Theorem typed_query_is_sent (net1 net2 : Network) (e : ChangeEvent) (s : State) :
  selectedCollection s ≠ "" → target_value e ≠ "" →
  sent (dispatch net2 handleSimilaritySearch
          (store (dispatch net1 (handler_prog h_setQueryString e) s))) =
    [mkRequest GET ("/collections/" +:+ selectedCollection s +:+ "/search")
       {[ "query_string" := target_value e ]}].
Proof.
  intros Hsel He. simpl.
  destruct (dispatch_handleSimilaritySearch_cases net2 (set_queryString (target_value e) s))
    as [(Hsel' & _)|[(_ & Hq & _)|(_ & _ & [(data & _ & ->)|(err & _ & ->)])]];
    done.
Qed.

Lemma typed_query_is_sent_witness :
  let net : Network := λ _, Resolved (JArr []) in
  let s := mkState "StatML" "" "" "" "old" (JArr []) "" in
  sent (dispatch net handleSimilaritySearch
          (store (dispatch net (handler_prog h_setQueryString
                                  (mkChangeEvent " graph  neural ")) s))) =
    [mkRequest GET "/collections/StatML/search"
       {[ "query_string" := " graph  neural " ]}].
Proof.
  intros net s.
  apply (typed_query_is_sent net net (mkChangeEvent " graph  neural ") s);
    discriminate.
Defined.

(** X11: what is typed into a date input is what the criteria search of the
    next render sends under the name of that input: the typed text as it
    is when it is non-empty, no parameter of that name when the input was
    cleared.  The other two date parameters are not affected. *)
Theorem typed_dates_are_sent
    (net1 net2 : Network) (h : Handler) (key : string) (e : ChangeEvent) (s : State) :
  (h, key) ∈ [(h_setYear, "year"); (h_setStartYear, "start_year");
              (h_setEndYear, "end_year")] →
  selectedCollection s ≠ "" →
  ∃ ps ps0 : gmap string string,
    sent (dispatch net2 handleSearch (store (dispatch net1 (handler_prog h e) s))) =
      [mkRequest GET ("/collections/" +:+ selectedCollection s +:+ "/articles") ps] ∧
    sent (dispatch net2 handleSearch s) =
      [mkRequest GET ("/collections/" +:+ selectedCollection s +:+ "/articles") ps0] ∧
    ps !! key = (if truthy (target_value e) then Some (target_value e) else None) ∧
    ∀ k, k ≠ key → ps !! k = ps0 !! k.
Proof.
  intros Hh Hsel.
  destruct (dispatch_handleSearch_selected net2 s Hsel) as (ps0 & Hps0 & Hw0).
  rewrite !elem_of_cons, elem_of_nil in Hh.
  destruct Hh as [[= -> ->]|[[= -> ->]|[[= -> ->]|[]]]]; simpl.
  - destruct (dispatch_handleSearch_selected net2 (set_year (target_value e) s) Hsel)
      as (ps & Hps & Hw).
    exists ps, ps0. simpl in *. rewrite Hw, Hw0. clear Hw Hw0.
    split; [by destruct (net2 (mkRequest _ _ ps))|].
    split; [by destruct (net2 (mkRequest _ _ ps0))|].
    split; [by rewrite Hps|].
    intros k Hk. rewrite Hps, Hps0. by repeat case_decide.
  - destruct (dispatch_handleSearch_selected net2 (set_startYear (target_value e) s) Hsel)
      as (ps & Hps & Hw).
    exists ps, ps0. simpl in *. rewrite Hw, Hw0. clear Hw Hw0.
    split; [by destruct (net2 (mkRequest _ _ ps))|].
    split; [by destruct (net2 (mkRequest _ _ ps0))|].
    split; [by rewrite Hps|].
    intros k Hk. rewrite Hps, Hps0. by repeat case_decide.
  - destruct (dispatch_handleSearch_selected net2 (set_endYear (target_value e) s) Hsel)
      as (ps & Hps & Hw).
    exists ps, ps0. simpl in *. rewrite Hw, Hw0. clear Hw Hw0.
    split; [by destruct (net2 (mkRequest _ _ ps))|].
    split; [by destruct (net2 (mkRequest _ _ ps0))|].
    split; [by rewrite Hps|].
    intros k Hk. rewrite Hps, Hps0. by repeat case_decide.
Qed.

Lemma typed_dates_are_sent_witness :
  let net : Network := λ _, Resolved (JArr []) in
  let s := mkState "CsCL" "2020" "" "2022" "" (JArr []) "" in
  ∃ ps : gmap string string,
    sent (dispatch net handleSearch
            (store (dispatch net (handler_prog h_setYear (mkChangeEvent "")) s))) =
      [mkRequest GET "/collections/CsCL/articles" ps] ∧
    ps !! "year" = None.
Proof.
  intros net s.
  destruct (typed_dates_are_sent net net h_setYear "year" (mkChangeEvent "") s)
    as (ps & ps0 & H1 & _ & H2 & _).
  - apply list_elem_of_here.
  - discriminate.
  - exists ps. split; [exact H1 | exact H2].
Defined.

(** ** The view *)

Ltac view_compute :=
  cbn [nodes flat_map app List.filter has_tag has_class is_input attribute attrs_of
       children_of key_of String.eqb Ascii.eqb Bool.eqb andb orb map fst snd
       radio_item collections Text].

Lemma article_item_Some (a : json) (li : jsx) :
  article_item a = Some li →
  ∃ id title summary,
    article_member a "id" = Some id ∧ article_member a "title" = Some title ∧
    article_member a "summary" = Some summary ∧
    li = Tag "li" (Some id) [("className", AStr "article-item")]
           [Tag "h2" None [("className", AStr "article-title")] [Val title];
            Tag "p" None [("className", AStr "article-summary")] [Val summary]].
Proof.
  unfold article_item. intros H.
  destruct (article_member a "id") as [id|]; simpl in H; [|done].
  destruct (article_member a "title") as [title|]; simpl in H; [|done].
  destruct (article_member a "summary") as [summary|]; simpl in H; [|done].
  injection H as <-. by exists id, title, summary.
Qed.

Lemma article_item_is_Some (a : json) : is_Some (article_item a) ↔ a ≠ JNull.
Proof.
  split.
  - intros [li H] ->. discriminate H.
  - intros Ha. destruct a; try done; by eexists.
Qed.

(** What [App] returns when it returns: the element around the result
    entries [lis]. *)
Lemma App_Some (y : Z) (s : State) (t : jsx) :
  App y s = Some t →
  ∃ items lis, articles s = JArr items ∧ mapM article_item items = Some lis ∧
               App y s = Some t ∧
               Forall2 (λ a li, article_item a = Some li) items lis.
Proof.
  intros H. pose proof H as H'. unfold App in H'.
  destruct (articles s) as [| | | |items|] eqn:Ha; try discriminate H'.
  simpl in H'. destruct (mapM article_item items) as [lis|] eqn:Hm; [|discriminate H'].
  exists items, lis. repeat split; try done. by apply mapM_Some_1.
Qed.

(** Nothing but result entries comes from the result list: a test that no
    part of an entry passes selects nothing among all of them. *)
Lemma entries_select_nothing (P : jsx → bool) (items : list json) (lis : list jsx) :
  (∀ id title summary,
     List.filter P (nodes (Tag "li" (Some id) [("className", AStr "article-item")]
        [Tag "h2" None [("className", AStr "article-title")] [Val title];
         Tag "p" None [("className", AStr "article-summary")] [Val summary]])) = []) →
  Forall2 (λ a li, article_item a = Some li) items lis →
  List.filter P (flat_map nodes lis) = [].
Proof.
  intros HP. induction 1 as [|a li items lis Ha _ IH]; [done|].
  destruct (article_item_Some a li Ha) as (id & title & summary & _ & _ & _ & ->).
  change (flat_map nodes (?x :: lis)) with (nodes x ++ flat_map nodes lis)%list.
  by rewrite List.filter_app, HP, IH.
Qed.

Lemma App_is_Some (y : Z) (s : State) :
  is_Some (App y s) ↔ showable (articles s).
Proof.
  unfold App, showable. split.
  - intros [t H].
    destruct (articles s) as [| | | |items|]; try discriminate H. simpl in H.
    destruct (mapM article_item items) as [lis|] eqn:Hm; [|discriminate H].
    exists items. split; [done|]. intros Hin.
    apply mapM_Some_1 in Hm.
    apply list_elem_of_lookup in Hin as (i & Hi).
    destruct (Forall2_lookup_l _ _ _ _ _ Hm Hi) as (li & _ & Hli). discriminate Hli.
  - intros (items & -> & Hnull). simpl.
    destruct (mapM_is_Some_2 article_item items) as [lis ->]; [|by eexists].
    apply Forall_forall. intros a Ha. apply article_item_is_Some.
    intros ->. by apply Hnull, list_elem_of_In.
Qed.



(** X13: the view shows one radio button per collection, in the order of
    the list, each checked exactly when its value is the selection.  So
    the radio button of the selected collection is the only one checked,
    and none is checked while the selection is not one of the five. *)
Theorem App_radios (y : Z) (s : State) (t : jsx) :
  App y s = Some t →
  radios t =
    map (λ c, (Some (AStr c), Some (ABool (String.eqb (selectedCollection s) c))))
        collections ∧
  checked_values t =
    if bool_decide (selectedCollection s ∈ collections)
    then [Some (AStr (selectedCollection s))] else [].
Proof.
  intros H. destruct (App_Some y s t H) as (items & lis & Ha & Hm & _ & Hlis).
  unfold App in H. rewrite Ha in H. simpl in H. rewrite Hm in H. simpl in H.
  injection H as <-.
  assert (List.filter (is_input "radio") (flat_map nodes lis) = []) as Hnone.
  { by apply (entries_select_nothing _ items). }
  assert (∀ tl, radios tl =
            map (λ c, (Some (AStr c), Some (ABool (String.eqb (selectedCollection s) c))))
                collections →
          checked_values tl =
            if bool_decide (selectedCollection s ∈ collections)
            then [Some (AStr (selectedCollection s))] else []) as Hchecked.
  { intros tl Hr. unfold checked_values. rewrite Hr. clear.
    destruct (decide (selectedCollection s ∈ collections)) as [Hin|Hout].
    - rewrite bool_decide_eq_true_2 by done.
      unfold collections in Hin. rewrite !elem_of_cons, elem_of_nil in Hin.
      destruct Hin as [->|[->|[->|[->|[->|[]]]]]]; reflexivity.
    - rewrite bool_decide_eq_false_2 by done.
      unfold collections in *. rewrite !elem_of_cons, elem_of_nil in Hout.
      cbn [map List.filter snd fst].
      repeat match goal with
             | |- context [String.eqb ?a ?b] =>
                 destruct (String.eqb_spec a b); [tauto|]
             end.
      reflexivity. }
  match goal with |- radios ?tr = _ ∧ _ =>
    assert (radios tr =
      map (λ c, (Some (AStr c), Some (ABool (String.eqb (selectedCollection s) c))))
          collections) as Hr
  end.
  { unfold radios, error_line. destruct (truthy (error s)); view_compute;
      rewrite !app_nil_r, !List.filter_app, Hnone; reflexivity. }
  split; [exact Hr | by apply Hchecked].
Qed.

(** X14: the view holds an error paragraph exactly when the error message
    is non-empty, and then its text is the message; with an empty message
    no paragraph of that class exists. *)
Theorem App_error_line (y : Z) (s : State) (t : jsx) :
  App y s = Some t →
  error_paragraphs t =
    if truthy (error s)
    then [Tag "p" None [("className", AStr "error-message")] [Text (error s)]]
    else [].
Proof.
  intros H. destruct (App_Some y s t H) as (items & lis & Ha & Hm & _ & Hlis).
  unfold App in H. rewrite Ha in H. simpl in H. rewrite Hm in H. simpl in H.
  injection H as <-.
  assert (List.filter (λ n, has_tag "p" n && has_class "error-message" n)
            (flat_map nodes lis) = []) as Hnone.
  { by apply (entries_select_nothing _ items). }
  unfold error_paragraphs, error_line. destruct (truthy (error s)); view_compute;
    rewrite !app_nil_r, !List.filter_app, Hnone; reflexivity.
Qed.

Lemma App_error_line_witness :
  ∃ t, App 2024 (mkState "" "" "" "" "" (JArr []) "Veuillez sélectionner une collection.")
       = Some t ∧
       error_paragraphs t =
         [Tag "p" None [("className", AStr "error-message")]
            [Text "Veuillez sélectionner une collection."]].
Proof.
  eexists. split; [reflexivity|].
  apply (App_error_line 2024
           (mkState "" "" "" "" "" (JArr []) "Veuillez sélectionner une collection.")).
  reflexivity.
Defined.




Lemma App_fields (y : Z) (s : State) (t : jsx) :
  App y s = Some t →
  fields t =
    [(Some (AHandler h_setYear), Some (AStr (year s)));
     (Some (AHandler h_setStartYear), Some (AStr (startYear s)));
     (Some (AHandler h_setEndYear), Some (AStr (endYear s)));
     (Some (AHandler h_setQueryString), Some (AStr (queryString s)))].
Proof.
  intros H. destruct (App_Some y s t H) as (items & lis & Ha & Hm & _ & Hlis).
  unfold App in H. rewrite Ha in H. simpl in H. rewrite Hm in H. simpl in H.
  injection H as <-.
  assert (List.filter (λ i, is_input "number" i || is_input "text" i)
            (flat_map nodes lis) = []) as Hnone.
  { by apply (entries_select_nothing _ items). }
  unfold fields, error_line. destruct (truthy (error s)); view_compute;
    rewrite !app_nil_r, !List.filter_app, Hnone; reflexivity.
Qed.

(** X16: the four inputs are bound both ways.  After a change event on one
    of them, the next view shows the typed text in that input and the
    previous values in the other three; the view still exists, typing
    cannot break it. *)
Theorem typed_text_is_shown
    (y : Z) (net : Network) (h : Handler) (e : ChangeEvent) (s : State) (t0 : jsx) :
  may_call h = false →
  App y s = Some t0 →
  ∃ t, App y (store (dispatch net (handler_prog h e) s)) = Some t ∧
       fields t =
         [(Some (AHandler h_setYear),
           Some (AStr (match h with h_setYear => target_value e | _ => year s end)));
          (Some (AHandler h_setStartYear),
           Some (AStr (match h with h_setStartYear => target_value e | _ => startYear s end)));
          (Some (AHandler h_setEndYear),
           Some (AStr (match h with h_setEndYear => target_value e | _ => endYear s end)));
          (Some (AHandler h_setQueryString),
           Some (AStr (match h with
                       | h_setQueryString => target_value e
                       | _ => queryString s
                       end)))].
Proof.
  intros Hh H0. rewrite (dispatch_typing net h e s Hh). simpl.
  assert (is_Some (App y s)) as Hs by by eexists.
  apply App_is_Some in Hs.
  destruct h; try discriminate Hh.
  - destruct (proj2 (App_is_Some y (set_year (target_value e) s)) Hs) as [t Ht].
    exists t. split; [done|]. by rewrite (App_fields _ _ _ Ht).
  - destruct (proj2 (App_is_Some y (set_startYear (target_value e) s)) Hs) as [t Ht].
    exists t. split; [done|]. by rewrite (App_fields _ _ _ Ht).
  - destruct (proj2 (App_is_Some y (set_endYear (target_value e) s)) Hs) as [t Ht].
    exists t. split; [done|]. by rewrite (App_fields _ _ _ Ht).
  - destruct (proj2 (App_is_Some y (set_queryString (target_value e) s)) Hs) as [t Ht].
    exists t. split; [done|]. by rewrite (App_fields _ _ _ Ht).
Qed.

Lemma typed_text_is_shown_witness :
  ∃ t, App 2024 (store (dispatch (λ _, Resolved (JArr [])) (handler_prog h_setEndYear
                          (mkChangeEvent "2023")) initial_state)) = Some t ∧
       fields t =
         [(Some (AHandler h_setYear), Some (AStr ""));
          (Some (AHandler h_setStartYear), Some (AStr ""));
          (Some (AHandler h_setEndYear), Some (AStr "2023"));
          (Some (AHandler h_setQueryString), Some (AStr ""))].
Proof.
  destruct (typed_text_is_shown 2024 (λ _, Resolved (JArr [])) h_setEndYear
              (mkChangeEvent "2023") initial_state) with (t0 := default (Val Undefined)
                                                              (App 2024 initial_state))
    as (t & Ht & Hf); [reflexivity | reflexivity |].
  exists t. split; [exact Ht | exact Hf].
Defined.

Lemma App_radios_witness :
  ∃ t, App 2024 (mkState "CsCL" "" "" "" "" (JArr []) "") = Some t ∧
       radios t =
         [(Some (AStr "CSCV"), Some (ABool false)); (Some (AStr "CsAI"), Some (ABool false));
          (Some (AStr "CsCL"), Some (ABool true)); (Some (AStr "CsLG"), Some (ABool false));
          (Some (AStr "StatML"), Some (ABool false))] ∧
       checked_values t = [Some (AStr "CsCL")].
Proof.
  eexists. split; [reflexivity|].
  apply (App_radios 2024 (mkState "CsCL" "" "" "" "" (JArr []) "")).
  reflexivity.
Defined.

(** X17: a successful response that is not an array without [null] (an
    error object, [null], a string, an array holding [null]) is stored all
    the same, and the next render throws: after such a response to either
    search, [App] returns no view. *)
Theorem unshowable_response_breaks_view
    (y : Z) (net : Network) (s : State) (v : json) :
  (∀ r, net r = Resolved v) → ¬ showable v → selectedCollection s ≠ "" →
  App y (store (dispatch net handleSearch s)) = None ∧
  (queryString s ≠ "" → App y (store (dispatch net handleSimilaritySearch s)) = None).
Proof.
  intros Hnet Hv Hsel.
  assert (∀ s', articles s' = v → App y s' = None) as Hnone.
  { intros s' Ha. apply eq_None_not_Some. rewrite App_is_Some, Ha. done. }
  split.
  - destruct (dispatch_handleSearch_selected net s Hsel) as (ps & _ & Hw).
    simpl in Hw. rewrite Hw, Hnet. by apply Hnone.
  - intros Hq.
    pose proof (dispatch_handleSimilaritySearch_ready net s Hsel Hq) as Hw.
    simpl in Hw. rewrite Hw, Hnet. by apply Hnone.
Qed.

Lemma unshowable_response_breaks_view_witness :
  let v := JObj [("detail", JStr "Collection not found")] in
  let s := mkState "CSCV" "" "" "" "pose" (JArr []) "" in
  App 2024 (store (dispatch (λ _, Resolved v) handleSearch s)) = None ∧
  App 2024 (store (dispatch (λ _, Resolved v) handleSimilaritySearch s)) = None.
Proof.
  intros v s.
  destruct (unshowable_response_breaks_view 2024 (λ _, Resolved v) s v) as (H1 & H2).
  - reflexivity.
  - intros (items & Hv & _). discriminate Hv.
  - discriminate.
  - split; [exact H1 | apply H2; discriminate].
Defined.



(** ** [getData] and its address *)

(** X19: [getData] fetches one address, the configured base followed by
    [/api/data].  A non-empty setting is used as it is, without any
    normalisation; an unset or empty setting gives
    [http://localhost:8000/api/data]; the address is never the bare path
    [/api/data], and the result depends on [fetch] at that address only. *)
Theorem getData_address (env : option string) :
  (∀ u, u ≠ "" → env = Some u → getData_url env = u +:+ "/api/data") ∧
  (env = None ∨ env = Some "" → getData_url env = "http://localhost:8000/api/data") ∧
  getData_url env ≠ "/api/data" ∧
  String.length (getData_url env) = String.length (API_URL env) + 9 ∧
  (∀ fetch1 fetch2, fetch1 (getData_url env) = fetch2 (getData_url env) →
                    getData env fetch1 = getData env fetch2).
Proof.
  repeat split.
  - intros u Hu ->. unfold getData_url, API_URL.
    apply truthy_true in Hu. by rewrite Hu.
  - by intros [->| ->].
  - unfold getData_url. apply prefixed_ne, API_URL_nonempty.
  - unfold getData_url. by rewrite string_app_length.
  - intros f1 f2 Hf. unfold getData. by rewrite Hf.
Qed.

Lemma getData_address_witness :
  getData_url (Some "https://api.topsearch.example/") =
    "https://api.topsearch.example//api/data" ∧
  getData_url (Some "") = "http://localhost:8000/api/data" ∧
  getData_url None = "http://localhost:8000/api/data".
Proof.
  split; [|split].
  - apply (proj1 (getData_address (Some "https://api.topsearch.example/"))
             "https://api.topsearch.example/"); [discriminate | reflexivity].
  - apply (proj1 (proj2 (getData_address (Some "")))). by right.
  - apply (proj1 (proj2 (getData_address None))). by left.
Defined.

(** X20: [getData] never looks at the status.  It fulfils with the parsed
    body of any response, 404 and 500 included; it throws only when
    [fetch] itself fails or the body is not JSON. *)
Theorem getData_ignores_status
    (env : option string) (fetch : string → fetch_outcome) :
  (∀ data, getData env fetch = Fulfilled data ↔
           ∃ status, fetch (getData_url env) = Response status (Some data)) ∧
  (getData env fetch = Thrown_SyntaxError ↔
     ∃ status, fetch (getData_url env) = Response status None) ∧
  (∀ m, getData env fetch = Thrown_TypeError m ↔
        fetch (getData_url env) = FetchFailed m).
Proof.
  unfold getData.
  destruct (fetch (getData_url env)) as [status [data|]|m];
    (split; [intros d|split; [|intros m']]); split; try done;
    try (by intros (? & [=])).
  - intros [= ->]. by exists status.
  - by intros (? & [= _ ->]).
  - intros _. by exists status.
  - by intros [= ->].
  - by intros [= ->].
Qed.

Lemma getData_ignores_status_witness :
  getData None (λ _, Response 404 (Some (JObj [("detail", JStr "Not Found")]))) =
    Fulfilled (JObj [("detail", JStr "Not Found")]) ∧
  getData None (λ _, Response 200 None) = Thrown_SyntaxError.
Proof.
  split.
  - apply (proj1 (getData_ignores_status None
                    (λ _, Response 404 (Some (JObj [("detail", JStr "Not Found")]))))).
    by exists 404%Z.
  - apply (proj1 (proj2 (getData_ignores_status None (λ _, Response 200 None)))).
    by exists 200%Z.
Defined.

(** ** Calls in flight *)

(** Running a program to its end is starting it and settling its call with
    the answer of the network. *)
Lemma exec_start (net : Network) (p : prog) :
  ∀ w, exec net p w =
       match start p w with
       | (w', None) => w'
       | (w', Some (r, k)) => exec net (k (net r)) w'
       end.
Proof.
  induction p as [|c k IH|y k IH|y k IH|y k IH|q k IH|v k IH|m k IH|e k IH|u ps k IH];
    intros w; simpl; try apply IH; done.
Qed.

(** Where a search stops: nowhere when a precondition fails, at its one
    call otherwise. *)
Lemma start_search (h : State → prog) (s : State) (w w' : World) (pending : Pending) :
  h ∈ [handleSearch; handleSimilaritySearch] →
  start (h s) w = (w', Some pending) →
  store w' = store w ∧
  ∀ v w0, settle pending (Resolved v) w0 =
            (on_store (set_error "") (on_store (set_articles v) w0), None).
Proof.
  rewrite !elem_of_cons, elem_of_nil. intros [->|[->|[]]].
  - unfold handleSearch. destruct (truthy (selectedCollection s)); simpl; [|done].
    intros [= <- <-]. by split.
  - unfold handleSimilaritySearch.
    destruct (truthy (selectedCollection s)); simpl; [|done].
    destruct (truthy (queryString s)); simpl; [|done].
    intros [= <- <-]. by split.
Qed.

(** X21: nothing orders two searches in flight.  When a second search is
    started before the call of the first has settled and both calls
    succeed, the result list is the body of the call that settles last,
    whichever search was started first; the error message is empty and no
    call is left pending. *)
Theorem last_settled_wins
    (h1 h2 : State → prog) (s1 s2 : State) (w w1 w2 : World) (p1 p2 : Pending)
    (v1 v2 : json) :
  h1 ∈ [handleSearch; handleSimilaritySearch] →
  h2 ∈ [handleSearch; handleSimilaritySearch] →
  start (h1 s1) w = (w1, Some p1) →
  start (h2 s2) w1 = (w2, Some p2) →
  settle p2 (Resolved v2) (fst (settle p1 (Resolved v1) w2)) =
    (on_store (set_error "") (on_store (set_articles v2) w2), None) ∧
  settle p1 (Resolved v1) (fst (settle p2 (Resolved v2) w2)) =
    (on_store (set_error "") (on_store (set_articles v1) w2), None) ∧
  sent w2 = (sent w ++ [fst p1; fst p2])%list.
Proof.
  intros Hh1 Hh2 H1 H2.
  destruct (start_search h1 s1 w w1 p1 Hh1 H1) as (_ & Hk1).
  destruct (start_search h2 s2 w1 w2 p2 Hh2 H2) as (_ & Hk2).
  rewrite !Hk1, !Hk2. simpl. repeat split.
  rewrite !elem_of_cons, elem_of_nil in Hh1, Hh2.
  assert (sent w1 = (sent w ++ [fst p1])%list) as Hs1.
  { destruct Hh1 as [->|[->|[]]]; revert H1;
      unfold handleSearch, handleSimilaritySearch;
      repeat (match goal with |- context [truthy ?x] => destruct (truthy x) end;
              simpl; try done);
      by intros [= <- <-]. }
  assert (sent w2 = (sent w1 ++ [fst p2])%list) as Hs2.
  { destruct Hh2 as [->|[->|[]]]; revert H2;
      unfold handleSearch, handleSimilaritySearch;
      repeat (match goal with |- context [truthy ?x] => destruct (truthy x) end;
              simpl; try done);
      by intros [= <- <-]. }
  by rewrite Hs2, Hs1, <- app_assoc.
Qed.

Lemma last_settled_wins_witness :
  let s := mkState "CsAI" "2020" "" "" "agents" (JArr []) "" in
  let w := mkWorld s [] [] in
  let r1 := mkRequest GET "/collections/CsAI/articles" {[ "year" := "2020" ]} in
  let r2 := mkRequest GET "/collections/CsAI/search" {[ "query_string" := "agents" ]} in
  ∃ p1 p2 w2,
    fst p1 = r1 ∧ fst p2 = r2 ∧
    articles (store (fst (settle p2 (Resolved (JArr [JStr "second"]))
                            (fst (settle p1 (Resolved (JArr [JStr "first"])) w2)))))
      = JArr [JStr "second"] ∧
    articles (store (fst (settle p1 (Resolved (JArr [JStr "first"]))
                            (fst (settle p2 (Resolved (JArr [JStr "second"])) w2)))))
      = JArr [JStr "first"].
Proof.
  intros s w r1 r2.
  destruct (start (handleSearch s) w) as [w1 [p1|]] eqn:H1; [|discriminate H1].
  destruct (start (handleSimilaritySearch s) w1) as [w2 [p2|]] eqn:H2.
  2:{ injection H1 as <- <-. discriminate H2. }
  exists p1, p2, w2.
  destruct (last_settled_wins handleSearch handleSimilaritySearch s s w w1 w2 p1 p2
              (JArr [JStr "first"]) (JArr [JStr "second"])) as (Ha & Hb & _);
    [apply list_elem_of_here | apply list_elem_of_further, list_elem_of_here
     | exact H1 | exact H2 |].
  rewrite Ha, Hb. injection H1 as <- <-. injection H2 as <- <-. by repeat split.
Defined.
